(** * Flexget input plugins: [soup_parse] and [torznab]

    A shallow embedding of [flexget/plugins/input/soup_parse.py] and
    [flexget/plugins/input/torznab.py], and the properties of the two
    plugins that their specification states.

    Python values are modelled as follows.
    - [str] is [string]; [int] is [Z].
    - A raised exception is the [Raise] case of [result].
    - Calls to [log.warning] / [log.warn] append a structured record to a
      log that the writer monad [W] carries next to the result.
    - BeautifulSoup and the [re] module are libraries outside the
      repository: the plugins are defined over the interfaces [Regex] and
      [Soup], and every general theorem holds for every implementation of
      them.  A small concrete implementation ([Html], [MiniRe]) is used to
      run the plugins on example documents. *)

From Stdlib Require Import ZArith Lia Ascii String List Bool.
From Stdlib Require Import Decimal DecimalString DecimalZ DecimalPos.
From stdpp Require Import base option list strings gmap.
From Equations Require Import Equations.

Local Open Scope string_scope.
Local Open Scope Z_scope.
Local Open Scope list_scope.

(** ** Exceptions and the writer monad *)

Inductive exn : Type :=
| KeyError (key : string)
| IndexError
| TypeError
| SyntaxError (src : string)
| ReError (pattern : string)
| RequestError (text : string)
| PluginError (msg : string).

Inductive result (A : Type) : Type :=
| Ok (a : A)
| Raise (e : exn).
Arguments Ok {A} a.
Arguments Raise {A} e.

(** Records handed to the logger of [soup_parse]; the fields are the values
    the source formats into the message. *)
Inductive warning : Type :=
| StartAfterEnd (start_shown scope_shown end_shown actual_end match_shown : Z)
| EndAfterActual (end_shown scope_shown actual_end match_shown : Z)
| SectionNotFound (key : string) (sec_num : Z)
| TextOutOfRange (key : string) (sec_num : Z)
| NoTextFound (key : string) (sec_num : Z)
| UrlOutOfRange (key : string) (sec_num : Z)
| NoUrlsFound (key : string) (sec_num : Z).

Module R.
Definition bind {A B} (m : result A) (k : A -> result B) : result B :=
  match m with
  | Ok a => k a
  | Raise e => Raise e
  end.

(** [[f(a) for a in l]], stopping at the first exception. *)
Fixpoint mapM {A B} (f : A -> result B) (l : list A) : result (list B) :=
  match l with
  | [] => Ok []
  | a :: l' => bind (f a) (fun b => bind (mapM f l') (fun bs => Ok (b :: bs)))
  end.
End R.

Module W.
(** A computation that may raise and that logs warnings on the way. *)
Definition t (A : Type) : Type := (result A * list warning)%type.

Definition ret {A} (a : A) : t A := (Ok a, []).
Definition raise {A} (e : exn) : t A := (Raise e, []).
Definition warn (w : warning) : t unit := (Ok tt, [w]).
Definition lift {A} (r : result A) : t A := (r, []).

Definition bind {A B} (m : t A) (k : A -> t B) : t B :=
  match m with
  | (Ok a, l) => let '(r, l') := k a in (r, l ++ l')
  | (Raise e, l) => (Raise e, l)
  end.

(** [for a in l: acc = body(acc, a)], stopping at the first exception. *)
Fixpoint foldM {A S} (body : S -> A -> t S) (acc : S) (l : list A) : t S :=
  match l with
  | [] => ret acc
  | a :: l' => bind (body acc a) (fun acc' => foldM body acc' l')
  end.
End W.

Declare Scope w_scope.
Delimit Scope w_scope with W.
Notation "'let*' x ':=' m 'in' k" := (W.bind m (fun x => k))
  (at level 10, x pattern, m at level 100, k at level 200) : w_scope.
Notation "'let?' x ':=' m 'in' k" := (R.bind m (fun x => k))
  (at level 10, x pattern, m at level 100, k at level 200) : w_scope.
Local Open Scope w_scope.

(** ** Python primitives used by the plugins *)

Module Py.

(** [s.startswith(p)] *)
Definition startswith (s p : string) : bool := String.prefix p s.

(** The characters [str.strip()] removes: those of [str.isspace].  A
    character of a string stands for a code point below 256; among these
    the blanks are 9 to 13, 28 to 32, 133 (next line) and 160 (no-break
    space). *)
Definition isspace (c : ascii) : bool :=
  let n := nat_of_ascii c in
  ((9 <=? n)%nat && (n <=? 13)%nat) || ((28 <=? n)%nat && (n <=? 32)%nat)
  || (n =? 133)%nat || (n =? 160)%nat.

Fixpoint lstrip (s : string) : string :=
  match s with
  | String c s' => if isspace c then lstrip s' else s
  | EmptyString => EmptyString
  end.

Fixpoint rstrip (s : string) : string :=
  match s with
  | String c s' =>
      match rstrip s' with
      | EmptyString => if isspace c then EmptyString else String c EmptyString
      | r => String c r
      end
  | EmptyString => EmptyString
  end.

(** [s.strip()] *)
Definition strip (s : string) : string := rstrip (lstrip s).

(** [s.rstrip(c)] for a one-character argument. *)
Fixpoint rstrip_char (ch : ascii) (s : string) : string :=
  match s with
  | String c s' =>
      match rstrip_char ch s' with
      | EmptyString => if Ascii.eqb c ch then EmptyString else String c EmptyString
      | r => String c r
      end
  | EmptyString => EmptyString
  end.

(** [s.split(sep)] for a one-character separator. *)
Fixpoint split (sep : ascii) (s : string) : list string :=
  match s with
  | EmptyString => [EmptyString]
  | String c s' =>
      if Ascii.eqb c sep then EmptyString :: split sep s'
      else match split sep s' with
           | w :: ws => String c w :: ws
           | [] => [String c EmptyString]
           end
  end.

(** Truth value of a string: [bool(s)]. *)
Definition truthy (s : string) : bool :=
  match s with EmptyString => false | _ => true end.

(** Truth value of [d.get(k)] for a string-valued entry: [None] and the
    empty string are false. *)
Definition truthy_opt (o : option string) : bool :=
  match o with Some s => truthy s | None => false end.

(** [str(z)] for an integer. *)
Definition str (z : Z) : string := NilZero.string_of_int (Z.to_int z).

(** What an f-string prints for the value of [d.get(k)]. *)
Definition format_opt (o : option string) : string :=
  match o with Some s => s | None => "None" end.

(** [eval(src)] in a scope where [len(new_tag_list)] is [n].  The plugin
    only ever evaluates the strings it built itself: a decimal literal
    ([str] of an integer) or the text [len(new_tag_list)]; any other
    source is reported as a [SyntaxError]. *)
Definition eval (src : string) (n : Z) : result Z :=
  if String.eqb src "len(new_tag_list)" then Ok n
  else match NilZero.int_of_string src with
       | Some d => Ok (Z.of_int d)
       | None => Raise (SyntaxError src)
       end.

(** [l[i]], with Python's negative indices. *)
Definition index {A} (l : list A) (i : Z) : result A :=
  let n := Z.of_nat (length l) in
  let j := if 0 <=? i then i else n + i in
  if (0 <=? j) && (j <? n) then
    match l !! Z.to_nat j with
    | Some a => Ok a
    | None => Raise IndexError
    end
  else Raise IndexError.

(** [range(a, b)] *)
Definition range (a b : Z) : list Z :=
  map (fun k => a + Z.of_nat k) (seq 0 (Z.to_nat (b - a))).

(** [len(l)] *)
Definition len {A} (l : list A) : Z := Z.of_nat (length l).

End Py.

(** ** Interfaces of the external libraries *)

(** The [re] module: [re.compile(pattern, flags)], which raises on a
    malformed pattern, and [p.search(s)], which yields [m.group(0)] of the
    first match, if any. *)
Class Regex : Type := {
  Pattern : Type;
  re_compile : string -> Z -> result Pattern;
  re_search : Pattern -> string -> option string
}.

(** A child of a tag: another tag or a string. *)
Inductive child (T : Type) : Type :=
| ChildTag (t : T)
| ChildString (s : string).
Arguments ChildTag {T} t.
Arguments ChildString {T} s.

(** BeautifulSoup: the operations on tags that the plugins call. *)
Class Soup `{Regex} : Type := {
  Tag : Type;
  (** [tag.find_all(name_pattern, attrs)] *)
  find_all : Tag -> Pattern -> list (option string * Pattern) -> list Tag;
  (** [tag.find_all(text=True)] *)
  find_all_text : Tag -> list string;
  (** [tag.find_all(name)] for a plain string *)
  find_all_named : Tag -> string -> list Tag;
  (** [tag.find(name)] *)
  find : Tag -> string -> option Tag;
  (** [tag.text] *)
  tag_text : Tag -> string;
  (** [tag.name] *)
  tag_name : Tag -> string;
  (** [tag.attrs] *)
  tag_attrs : Tag -> gmap string string;
  (** [list(tag)] *)
  tag_children : Tag -> list (child Tag)
}.

(** [tag[key]] *)
Definition getitem `{Soup} (tag : Tag) (key : string) : result string :=
  match tag_attrs tag !! key with
  | Some v => Ok v
  | None => Raise (KeyError key)
  end.

(** [urllib.parse]: the two functions the plugins call. *)
Class UrlLib : Type := {
  urljoin : string -> string -> string;
  urlencode : list (string * string) -> string
}.

(** ** soup_parse: configuration *)

Module SoupParse.

(** One item of a [scope_limiter] list: a bare string or an object.  Schema
    validation fills in the defaults [start = 1] and [end = 31415] before
    the plugin sees the object, so both are always present. *)
Record limit_dict : Type := {
  element_name : option string;
  attribute_name : option string;
  attribute_value : option string;
  start : Z;
  end_ : Z
}.

Inductive scope_limit : Type :=
| LimitStr (name : string)
| LimitDict (d : limit_dict).

(** One item of a [regex_list]. *)
Record regexp_dict : Type := {
  regexp : string;
  flags : option string
}.

(** The [location] of a key: ['text'] / ['url'], or a one-entry object
    [{'text': N}] / [{'url': N}]. *)
Inductive location_info : Type :=
| LocStr (s : string)
| LocDict (location : string) (loc : Z).

(** The value of one entry of [config['keys']]. *)
Record key_config : Type := {
  section : option (list scope_limit);
  location : option location_info;
  required_flag : option bool;
  regexps : option (list regexp_dict)
}.

(** The plugin configuration; [keys] lists [config['keys'].items()]. *)
Record config : Type := {
  source : string;
  sections : option (list scope_limit);
  keys : list (string * key_config)
}.

(** The plugin instance: [self.required]. *)
Record t : Type := { required : list string }.

(** [SoupParse.__init__] *)
Definition __init__ : t := {| required := [] |}.

(** [FLAG_VALUES], with the values of the [re] flag constants. *)
Definition FLAG_VALUES : list (string * Z) :=
  [ ("DEBUG", 128); ("I", 2); ("IGNORECASE", 2); ("L", 4); ("LOCALE", 4);
    ("M", 8); ("MULTILINE", 8); ("S", 16); ("DOTALL", 16); ("U", 32);
    ("UNICODE", 32); ("X", 64); ("VERBOSE", 64) ].

Fixpoint assoc {V} (k : string) (l : list (string * V)) : option V :=
  match l with
  | [] => None
  | (k', v) :: l' => if String.eqb k k' then Some v else assoc k l'
  end.

(** [flagstr_to_flags] *)
Definition flagstr_to_flags (flag_str : string) : result Z :=
  let split_flags := Py.split "," flag_str in
  fold_left
    (fun COMBIND_FLAGS flag =>
       let? acc := COMBIND_FLAGS in
       match assoc (Py.strip flag) FLAG_VALUES with
       | Some v => Ok (Z.lor acc v)
       | None => Raise (KeyError (Py.strip flag))
       end)
    split_flags (Ok 0).

(** A record under construction: the host's [Entry], used as a mapping from
    field names to the extracted strings.  The mapping holds the fields
    under the names the plugin assigns.  The host's [Entry]
    ([flexget.entry] is not among the sources) keeps two fields of its
    own beside them, [original_title] and [original_url], which it sets
    when [title] and [url] are assigned; they are not part of the mapping,
    and what is stated of the fields of a record leaves these two names
    aside. *)
Abbreviation Entry := (gmap string string).

(** Modelled from the spec: [Entry.isvalid] of the host ([flexget.entry] is
    not among the sources): the host-level mandatory fields "title" and
    "url" are present. *)
Definition entry_isvalid (entry : Entry) : bool :=
  bool_decide (is_Some (entry !! "title")) && bool_decide (is_Some (entry !! "url")).

(** [isvalid] *)
Fixpoint isvalid_loop (required : list string) (entry : Entry) : bool :=
  match required with
  | [] => entry_isvalid entry
  | key :: rest =>
      if bool_decide (is_Some (entry !! key)) then isvalid_loop rest entry
      else false
  end.

Definition isvalid (self : t) (entry : Entry) : bool :=
  isvalid_loop self.(required) entry.

Section WithLibraries.
Context `{SoupImpl : Soup} `{UrlImpl : UrlLib}.

(** Modelled from the spec: the Fetch step.  [os.path.isfile], [codecs],
    [task.requests] and [flexget.utils.soup.get_soup] belong to the host;
    a task is what they amount to together: from the source string to the
    parsed document, or an exception. *)
Record task : Type := { fetch_soup : string -> result Tag }.

(** [compile_regexp_dict_list] *)
Fixpoint compile_regexp_dict_list (re_list : list regexp_dict)
  : result (list Pattern) :=
  match re_list with
  | [] => Ok []
  | dic :: rest =>
      let? flags := match dic.(flags) with
                    | Some f => flagstr_to_flags f
                    | None => Ok 0
                    end in
      let? p := re_compile dic.(regexp) flags in
      let? ps := compile_regexp_dict_list rest in
      Ok (p :: ps)
  end.

(** A compiled search term: the list [[el_name, att_dict, start, end]] that
    [_tag_limiter] appends.  [start] and [end] are Python source text, to be
    passed to [eval]. *)
Record search_term : Type := {
  term_el_name : Pattern;
  term_att_dict : list (option string * Pattern);
  term_start : string;
  term_end : string
}.

(** The body of the loop of [_tag_limiter] for one [limit]. *)
Definition _tag_limiter_item (limit : scope_limit) : result search_term :=
  match limit with
  | LimitStr limit =>
      let? el_name := re_compile ("^" +:+ limit +:+ "$") 0 in
      Ok {| term_el_name := el_name; term_att_dict := [];
            term_start := "0"; term_end := "len(new_tag_list)" |}
  | LimitDict limit =>
      let el_name := limit.(element_name) in
      let att_name := limit.(attribute_name) in
      let att_val := limit.(attribute_value) in
      let start := Py.str (limit.(start) - 1) in
      let end_ := limit.(end_) in
      let? att_dict :=
        if negb (Py.truthy_opt att_name) && negb (Py.truthy_opt att_val)
        then Ok []
        else
          let att_val := match att_val with
                         | Some (String _ _ as v) => v
                         | _ => ".*"
                         end in
          let? p := re_compile ("^" +:+ att_val +:+ "$") 0 in
          Ok [(att_name, p)] in
      let end_ := if end_ =? 31415 then "len(new_tag_list)" else Py.str end_ in
      let? el_name := re_compile ("^" +:+ Py.format_opt el_name +:+ "$") 0 in
      Ok {| term_el_name := el_name; term_att_dict := att_dict;
            term_start := start; term_end := end_ |}
  end.

(** [_tag_limiter] (its [config] argument is unused). *)
Definition _tag_limiter (scope_limits : list scope_limit)
  : result (list search_term) :=
  R.mapM _tag_limiter_item scope_limits.

(** *** The hierarchical tag resolver *)

(** Lines 249-259: the [start] that the slice of one parent's matches uses.
    [x] is the index of the parent, [new_tag_list] its matches. *)
Definition effective_start (scope_num x : nat) (term : search_term)
    (new_tag_list : list Tag) : W.t string :=
  let n := Py.len new_tag_list in
  let* s := W.lift (Py.eval term.(term_start) n) in
  let* e := W.lift (Py.eval term.(term_end) n) in
  if (s >=? e) || (s >=? n) then
    let* _ := W.warn (StartAfterEnd (s + 1) (Z.of_nat scope_num + 1) e n
                                    (Z.of_nat x + 1)) in
    W.ret "0"
  else W.ret term.(term_start).

(** Lines 260-268: the [end] that the slice uses. *)
Definition effective_end (scope_num x : nat) (term : search_term)
    (new_tag_list : list Tag) : W.t string :=
  let n := Py.len new_tag_list in
  let* e := W.lift (Py.eval term.(term_end) n) in
  if e >? n then
    let* _ := W.warn (EndAfterActual e (Z.of_nat scope_num + 1) n
                                     (Z.of_nat x + 1)) in
    W.ret (Py.str n)
  else W.ret term.(term_end).

(** Lines 249-270: what one parent contributes to [temp_list]. *)
Definition scope_slice (scope_num x : nat) (term : search_term)
    (new_tag_list : list Tag) : W.t (list Tag) :=
  let n := Py.len new_tag_list in
  let* start := effective_start scope_num x term new_tag_list in
  let* end_ := effective_end scope_num x term new_tag_list in
  let* a := W.lift (Py.eval start n) in
  let* b := W.lift (Py.eval end_ n) in
  W.lift (R.mapM (Py.index new_tag_list) (Py.range a b)).

(** [tag_search_terms[scope_num]] *)
Definition term_at (tag_search_terms : list search_term) (scope_num : nat)
  : result search_term :=
  match tag_search_terms !! scope_num with
  | Some term => Ok term
  | None => Raise IndexError
  end.

(** Lines 243-270: the loop over [element_tag_list[scope_num]] at a
    non-final depth; [xs] pairs every parent with its index [x]. *)
Definition descend (scope_num : nat) (tag_search_terms : list search_term)
    (xs : list (nat * Tag)) : W.t (list Tag) :=
  W.foldM
    (fun temp_list '(x, parent) =>
       let* term := W.lift (term_at tag_search_terms scope_num) in
       let new_tag_list :=
         find_all parent term.(term_el_name) term.(term_att_dict) in
       let* picked := scope_slice scope_num x term new_tag_list in
       W.ret (temp_list ++ picked))
    [] xs.

(** The body of the loop of [descend] for a search term already looked
    up. *)
Definition descend_body (scope_num : nat) (term : search_term)
    (temp_list : list Tag) (xp : nat * Tag) : W.t (list Tag) :=
  let* picked :=
    scope_slice scope_num xp.1 term
      (find_all xp.2 term.(term_el_name) term.(term_att_dict)) in
  W.ret (temp_list ++ picked).

(** Lines 274-280: the loop at the final depth. *)
Definition flatten (scope_num : nat) (tag_search_terms : list search_term)
    (parents : list Tag) : W.t (list Tag) :=
  W.foldM
    (fun master_tag_list parent =>
       let* term := W.lift (term_at tag_search_terms scope_num) in
       let tmp_list :=
         find_all parent term.(term_el_name) term.(term_att_dict) in
       W.ret (master_tag_list ++ tmp_list))
    [] parents.

(** [enumerate(l)] *)
Definition enumerate {A} (l : list A) : list (nat * A) :=
  combine (seq 0 (length l)) l.

(** [element_tag_list[scope_num]] *)
Definition scope_at (element_tag_list : list (list Tag)) (scope_num : nat)
  : result (list Tag) :=
  match element_tag_list !! scope_num with
  | Some parents => Ok parents
  | None => Raise IndexError
  end.

(** [_get_master_tag_list] *)
Equations? _get_master_tag_list (element_tag_list : list (list Tag))
    (scope_num : nat) (tag_search_terms : list search_term)
  : W.t (list Tag) by wf (length tag_search_terms - scope_num)%nat lt :=
  _get_master_tag_list element_tag_list scope_num tag_search_terms
    with lt_dec (scope_num + 1) (length tag_search_terms) => {
    | left _ =>
        let* parents := W.lift (scope_at element_tag_list scope_num) in
        let* temp_list :=
          descend scope_num tag_search_terms (enumerate parents) in
        _get_master_tag_list (element_tag_list ++ [temp_list])
                             (scope_num + 1) tag_search_terms
    | right _ =>
        let* parents := W.lift (scope_at element_tag_list scope_num) in
        flatten scope_num tag_search_terms parents }.
Proof. lia. Qed.

(** *** The extractor *)

(** Lines 338-345: the loop that fills [key_to_regexps] and appends to
    [self.required].  The instance is returned as the loop left it, also
    when a pattern fails to compile on the way. *)
Fixpoint scan_keys (self : t) (key_to_regexps : gmap string (list Pattern))
    (items : list (string * key_config))
  : result (gmap string (list Pattern)) * t :=
  match items with
  | [] => (Ok key_to_regexps, self)
  | (key, value) :: rest =>
      let regexps := match value.(regexps) with
                     | Some regexps => regexps
                     | None => [{| regexp := ".*"; flags := None |}]
                     end in
      match compile_regexp_dict_list regexps with
      | Raise e => (Raise e, self)
      | Ok compiled =>
          let self' :=
            match value.(required_flag) with
            | Some true => {| required := self.(required) ++ [key] |}
            | _ => self
            end in
          scan_keys self' (<[key := compiled]> key_to_regexps) rest
      end
  end.

(** The keys that a configuration declares [required: true], in the order
    of [config['keys'].items()]. *)
Definition declared_required (items : list (string * key_config))
  : list string :=
  map fst (List.filter (fun item => match (snd item).(required_flag) with
                                    | Some true => true
                                    | _ => false
                                    end) items).

(** Lines 363-375: the tag a key is read from, or [None] when the loop
    moves on to the next key. *)
Definition working_tag (key : string) (sec_num : Z) (section : Tag)
    (value : key_config) : W.t (option Tag) :=
  let scope_limits := match value.(SoupParse.section) with
                      | Some l => l
                      | None => []
                      end in
  match scope_limits with
  | _ :: _ =>
      let* tag_search_terms := W.lift (_tag_limiter scope_limits) in
      let* tag_list := _get_master_tag_list [[section]] 0 tag_search_terms in
      match tag_list with
      | tag :: _ => W.ret (Some tag)
      | [] => let* _ := W.warn (SectionNotFound key sec_num) in W.ret None
      end
  | [] => W.ret (Some section)
  end.

(** Line 381: the condition under which the [href] is joined to the source
    url. *)
Definition needs_join (new_section : string) : bool :=
  negb (Py.startswith new_section "http://")
  || negb (Py.startswith new_section "https://").

(** Lines 376-413: the string [new_section] that the regexps are applied
    to. *)
Definition locate (url key : string) (sec_num : Z) (tag : Tag)
    (location_info : location_info) : W.t string :=
  match location_info with
  | LocStr location_info =>
      if String.eqb location_info "text" then
        W.ret (Py.strip (tag_text tag))
      else
        let* new_section := W.lift (getitem tag "href") in
        if needs_join new_section then W.ret (urljoin url new_section)
        else W.ret new_section
  | LocDict location loc =>
      let loc := loc - 1 in
      let new_section := "" in
      if String.eqb location "text" then
        let contents_list := find_all_text tag in
        match contents_list with
        | _ :: _ =>
            let new_section_list :=
              List.filter (fun t => Py.truthy (Py.strip t)) contents_list in
            if Py.len new_section_list >? loc then
              (* the picked string is bound to [new_section_list] *)
              let* _ := W.lift (Py.index new_section_list loc) in
              W.ret new_section
            else
              let* _ := W.warn (TextOutOfRange key sec_num) in
              W.ret new_section
        | [] =>
            let* _ := W.warn (NoTextFound key sec_num) in
            W.ret new_section
        end
      else
        let contents_list := find_all_named tag "a" in
        match contents_list with
        | _ :: _ =>
            if Py.len contents_list >? loc then
              let* a := W.lift (Py.index contents_list loc) in
              W.lift (getitem a "href")
            else
              let* _ := W.warn (UrlOutOfRange key sec_num) in
              W.ret new_section
        | [] =>
            let* _ := W.warn (NoUrlsFound key sec_num) in
            W.ret new_section
        end
  end.

(** Lines 416-423: the loop over the compiled regexps of a key. *)
Fixpoint apply_regexps (regexps : list Pattern) (new_section key : string)
    (entry : Entry) : Entry :=
  match regexps with
  | [] => entry
  | regexp :: rest =>
      if negb (Py.truthy new_section) then entry
      else match re_search regexp new_section with
           | Some group0 => <[key := group0]> entry
           | None => apply_regexps rest new_section key entry
           end
  end.

(** [key_to_regexps[key]] *)
Definition regexps_of (key_to_regexps : gmap string (list Pattern))
    (key : string) : result (list Pattern) :=
  match key_to_regexps !! key with
  | Some regexps => Ok regexps
  | None => Raise (KeyError key)
  end.

(** Lines 353-423: the body of the loop over [config['keys'].items()]. *)
Definition extract_key (url : string)
    (key_to_regexps : gmap string (list Pattern)) (sec_num : Z)
    (section : Tag) (entry : Entry) (item : string * key_config)
  : W.t Entry :=
  let '(key, value) := item in
  let location_info := match value.(location) with
                       | Some l => l
                       | None => LocStr "text"
                       end in
  let* tag := working_tag key sec_num section value in
  match tag with
  | None => W.ret entry
  | Some tag =>
      let* new_section := locate url key sec_num tag location_info in
      let* regexps := W.lift (regexps_of key_to_regexps key) in
      W.ret (apply_regexps regexps new_section key entry)
  end.

(** Lines 351-423: the record built for one section. *)
Definition extract_section (cfg : config)
    (key_to_regexps : gmap string (list Pattern)) (sec_num : Z)
    (section : Tag) : W.t Entry :=
  W.foldM (extract_key cfg.(source) key_to_regexps sec_num section)
          (∅ : Entry) cfg.(keys).

(** Lines 347-427: the loop over the sections. *)
Fixpoint extract_sections (self : t) (cfg : config)
    (key_to_regexps : gmap string (list Pattern)) (sec_num : Z)
    (sections : list Tag) (entries : list Entry) : W.t (list Entry) :=
  match sections with
  | [] => W.ret entries
  | section :: rest =>
      let sec_num := sec_num + 1 in
      let* entry := extract_section cfg key_to_regexps sec_num section in
      let entries := if isvalid self entry then entries ++ [entry]
                     else entries in
      extract_sections self cfg key_to_regexps sec_num rest entries
  end.

(** Lines 327-332: the sections of the document. *)
Definition sectionize (cfg : config) (soup : Tag) : W.t (list Tag) :=
  match cfg.(sections) with
  | Some ((_ :: _) as scope_limits) =>
      let* tag_search_terms := W.lift (_tag_limiter scope_limits) in
      _get_master_tag_list [[soup]] 0 tag_search_terms
  | _ => W.ret [soup]
  end.

(** [on_task_input], without its two decorators (the host's result cache
    and its translation of network exceptions).  Returns the outcome and
    the plugin instance as the call leaves it. *)
Definition on_task_input (self : t) (tsk : task) (cfg : config)
  : W.t (list Entry) * t :=
  let url := cfg.(source) in
  match fetch_soup tsk url with
  | Raise e => (W.raise e, self)
  | Ok soup =>
      match sectionize cfg soup with
      | (Raise e, l) => ((Raise e, l), self)
      | (Ok sections, l) =>
          match scan_keys self ∅ cfg.(keys) with
          | (Raise e, self') => ((Raise e, l), self')
          | (Ok key_to_regexps, self') =>
              (let* _ := ((Ok tt, l) : W.t unit) in
               extract_sections self' cfg key_to_regexps 0 sections [],
               self')
          end
      end
  end.

End WithLibraries.
End SoupParse.

(** ** torznab *)

Module Torznab.

(** The validated plugin configuration (the schema fills in the defaults of
    [searcher] and [categories]). *)
Record config : Type := {
  apikey : string;
  categories : list Z;
  searcher : string;
  website : string
}.

(** The attributes [_setup] and [_setup_searcher] set on the instance;
    [params] lists the items of the dictionary in insertion order. *)
Record t : Type := {
  base_url : string;
  supported_params : list string;
  params : list (string * string)
}.

(** [d[k] = v] on a dictionary kept as its list of items. *)
Fixpoint setitem (k v : string) (d : list (string * string))
  : list (string * string) :=
  match d with
  | [] => [(k, v)]
  | (k', v') :: d' =>
      if String.eqb k k' then (k, v) :: d' else (k', v') :: setitem k v d'
  end.

(** [aliases] of [_setup_searcher] *)
Definition aliases : list (string * string) :=
  [ ("movie", "movie-search"); ("search", "search"); ("tvsearch", "tv-search") ].

(** [aliases[searcher]] *)
Definition alias_of (searcher : string) : result string :=
  match SoupParse.assoc searcher aliases with
  | Some a => Ok a
  | None => Raise (KeyError searcher)
  end.

(** [attrs[key]] *)
Definition attr (attrs : gmap string string) (key : string) : result string :=
  match attrs !! key with
  | Some v => Ok v
  | None => Raise (KeyError key)
  end.

(** [_check_searcher]; the result is the truth value of what the source
    returns. *)
Definition _check_searcher (searchers : gmap string (gmap string string))
    (searcher : string) : result bool :=
  match searchers !! searcher with
  | None => Ok false
  | Some attrs =>
      let? available := attr attrs "available" in
      if String.eqb available "yes" then
        let? supportedparams := attr attrs "supportedparams" in
        Ok (Py.truthy supportedparams)
      else Ok false
  end.

(** [searchers[searcher]['supportedparams'].split(',')] *)
Definition supported_of (searchers : gmap string (gmap string string))
    (searcher : string) : result (list string) :=
  match searchers !! searcher with
  | None => Raise (KeyError searcher)
  | Some attrs =>
      let? supportedparams := attr attrs "supportedparams" in
      Ok (Py.split "," supportedparams)
  end.

(** The configuration as [_setup] leaves it: the searcher [tv] is
    rewritten to [tvsearch]. *)
Definition normalised (c : config) : config :=
  {| apikey := c.(apikey); categories := c.(categories);
     searcher := if String.eqb c.(searcher) "tv" then "tvsearch"
                 else c.(searcher);
     website := c.(website) |}.

(** [n] times the character [c]. *)
Definition run (c : ascii) (n : nat) : string :=
  Nat.iter n (String c) EmptyString.

(** A searcher is advertised when the capability document lists it with
    [available="yes"] and a non-empty [supportedparams]. *)
Definition advertised (searchers : gmap string (gmap string string))
    (searcher : string) : bool :=
  match searchers !! searcher with
  | Some attrs =>
      bool_decide (attrs !! "available" = Some "yes")
      && Py.truthy_opt (attrs !! "supportedparams")
  | None => false
  end.

(** The element of a searcher, if listed, carries the attributes that
    [_check_searcher] reads: [available], and [supportedparams] when
    [available] is [yes]. *)
Definition checkable (searchers : gmap string (gmap string string))
    (searcher : string) : Prop :=
  forall attrs, searchers !! searcher = Some attrs ->
    is_Some (attrs !! "available")
    /\ (attrs !! "available" = Some "yes" ->
        is_Some (attrs !! "supportedparams")).

Section WithLibraries.
Context `{SoupImpl : Soup} `{UrlImpl : UrlLib}.

(** What the plugin uses of the host's task: [task.requests.get(url)],
    yielding the tree BeautifulSoup builds from the content of the
    response, or the exception the request ends in. *)
Record task : Type := { requests_get : string -> result Tag }.

(** Everything a call can change: the instance, the configuration
    dictionary it is handed, the requests sent and the warnings logged. *)
Record world : Type := {
  self : t;
  cfg : option config;
  requested : list string;
  warned : list string
}.

(** A method: from the world before the call to its outcome and the world
    after it. *)
Definition M (A : Type) : Type := world -> result A * world.

Definition ret {A} (a : A) : M A := fun w => (Ok a, w).
Definition raise {A} (e : exn) : M A := fun w => (Raise e, w).
Definition lift {A} (r : result A) : M A := fun w => (r, w).
Definition bind {A B} (m : M A) (k : A -> M B) : M B :=
  fun w => match m w with
           | (Ok a, w') => k a w'
           | (Raise e, w') => (Raise e, w')
           end.
Definition get_self : M t := fun w => (Ok w.(self), w).
Definition set_self (s : t) : M unit :=
  fun w => (Ok tt, {| self := s; cfg := w.(cfg); requested := w.(requested);
                      warned := w.(warned) |}).
Definition set_cfg (c : config) : M unit :=
  fun w => (Ok tt, {| self := w.(self); cfg := Some c;
                      requested := w.(requested); warned := w.(warned) |}).
(** [config[...]] raises a [TypeError] when [config] is [None]. *)
Definition get_cfg : M config :=
  fun w => match w.(cfg) with
           | Some c => (Ok c, w)
           | None => (Raise TypeError, w)
           end.
Definition warn (msg : string) : M unit :=
  fun w => (Ok tt, {| self := w.(self); cfg := w.(cfg);
                      requested := w.(requested);
                      warned := w.(warned) ++ [msg] |}).
Definition request (tsk : task) (url : string) : M Tag :=
  fun w => (requests_get tsk url,
            {| self := w.(self); cfg := w.(cfg);
               requested := w.(requested) ++ [url]; warned := w.(warned) |}).

Notation "'let!' x ':=' m 'in' k" := (bind m (fun x => k))
  (at level 10, x pattern, m at level 100, k at level 200).

(** [_build_url(t=kind)] *)
Definition _build_url (kind : string) : M string :=
  let! s := get_self in
  let params := setitem "t" kind s.(params) in
  let url := s.(base_url) +:+ "/api?" in
  ret (url +:+ urlencode params).

(** The dictionary [searchers] of [_setup_searcher]: the tags among the
    children of the [searching] element, by name; a later tag replaces an
    earlier one of the same name. *)
Definition searchers_of (xml_root : Tag)
  : result (gmap string (gmap string string)) :=
  match find xml_root "searching" with
  | None => Raise TypeError
  | Some searching =>
      Ok (fold_left
            (fun d item =>
               match item with
               | ChildTag item => <[tag_name item := tag_attrs item]> d
               | ChildString _ => d
               end)
            (tag_children searching) ∅)
  end.

(** Whether a capability document advertises a searcher; a document
    without a [searching] element advertises none. *)
Definition doc_advertises (xml_root : Tag) (searcher : string) : bool :=
  match searchers_of xml_root with
  | Ok searchers => advertised searchers searcher
  | Raise _ => false
  end.

(** The url of the capabilities request for a configuration. *)
Definition caps_url (c : config) : string :=
  (Py.rstrip_char "/" c.(website) +:+ "/api?")
  +:+ urlencode [("apikey", c.(apikey)); ("extended", "1"); ("t", "caps")].

(** [_setup_searcher] (its [log.debug] calls are left out). *)
Definition _setup_searcher (xml_root : Tag) (searcher : string) : M unit :=
  let! searchers := lift (searchers_of xml_root) in
  let! s := get_self in
  if bool_decide (searchers = ∅) then
    raise (PluginError ("No searcher available on " +:+ s.(base_url)))
  else
    let! alias := lift (alias_of searcher) in
    let! ok := lift (_check_searcher searchers alias) in
    if ok then
      let! sp := lift (supported_of searchers alias) in
      set_self {| base_url := s.(base_url); supported_params := sp;
                  params := setitem "t" searcher s.(params) |}
    else
      let! fallback :=
        (if negb (String.eqb searcher "search")
         then lift (_check_searcher searchers "search") else ret false) in
      if fallback then
        let! _ := warn ("'" +:+ alias
                        +:+ "' searcher not availble, falling back to 'search'.") in
        let! sp := lift (supported_of searchers "search") in
        set_self {| base_url := s.(base_url); supported_params := sp;
                    params := setitem "t" "search" s.(params) |}
      else
        raise (PluginError ("No searcher available on " +:+ s.(base_url))).

(** [_setup_categories] *)
Definition _setup_categories (xml_root : Tag) (categories : list Z) : M unit :=
  ret tt.

(** The decorator [plugin.internet] of the host ([flexget.plugin] is not
    among the sources): an exception of the network raised by the
    decorated method, here [RequestError] with the text of the exception,
    comes out as a [PluginError]; every other exception, and the state the
    method leaves, pass unchanged. *)
Definition internet_exn (e : exn) : exn :=
  match e with
  | RequestError text => PluginError ("RequestException: " +:+ text)
  | _ => e
  end.

Definition internet {A} (method : M A) : M A :=
  fun w => match method w with
           | (Ok a, w') => (Ok a, w')
           | (Raise e, w') => (Raise (internet_exn e), w')
           end.

(** [_setup_caps], under [@plugin.internet(log)]. *)
Definition _setup_caps (tsk : task) (searcher : string) (categories : list Z)
  : M unit :=
  internet
    (let! url := _build_url "caps" in
     let! root := request tsk url in
     let! _ := _setup_searcher root searcher in
     _setup_categories root categories).

(** [_setup] *)
Definition _setup (tsk : task) : M unit :=
  let! c := get_cfg in
  let! s := get_self in
  let! _ := set_self {| base_url := Py.rstrip_char "/" c.(website);
                        supported_params := s.(supported_params);
                        params := s.(params) |} in
  let! s := get_self in
  let! _ := set_self {| base_url := s.(base_url); supported_params := [];
                        params := s.(params) |} in
  let! _ := (if String.eqb c.(searcher) "tv"
             then set_cfg {| apikey := c.(apikey); categories := c.(categories);
                             searcher := "tvsearch"; website := c.(website) |}
             else ret tt) in
  let! c := get_cfg in
  let! s := get_self in
  let! _ := set_self {| base_url := s.(base_url);
                        supported_params := s.(supported_params);
                        params := [("apikey", c.(apikey)); ("extended", "1")] |} in
  _setup_caps tsk c.(searcher) c.(categories).

(** [search] *)
Definition search (tsk : task) (entry : gmap string string)
  : M (list (gmap string string)) :=
  let! _ := _setup tsk in
  ret [].

End WithLibraries.
End Torznab.

(** ** A concrete implementation of the libraries, to run examples *)

(** A fragment of Python's regular expressions: literal characters, [.],
    [*] after a character or [.], [^] and [$].  Patterns that use anything
    else are refused, so that a pattern this module accepts has the
    meaning Python gives it. *)
Module MiniRe.

Inductive atom : Type :=
| Lit (c : ascii)
| AnyChar.

Inductive piece : Type :=
| One (a : atom)
| Star (a : atom)
| Bol
| Eol.

(** A compiled pattern: its pieces and whether [re.DOTALL] is set. *)
Record pattern : Type := { pieces : list piece; dotall : bool }.

Definition newline : ascii := ascii_of_nat 10.

Definition unsupported (c : ascii) : bool :=
  existsb (Ascii.eqb c)
    (list_ascii_of_string "\[](){}+?|*").

Definition atom_of (c : ascii) : atom :=
  if Ascii.eqb c "." then AnyChar else Lit c.

Fixpoint parse (s : string) : option (list piece) :=
  match s with
  | EmptyString => Some []
  | String c s' =>
      if Ascii.eqb c "^" then option_map (cons Bol) (parse s')
      else if Ascii.eqb c "$" then option_map (cons Eol) (parse s')
      else if unsupported c then None
      else match s' with
           | String "*" s'' => option_map (cons (Star (atom_of c))) (parse s'')
           | _ => option_map (cons (One (atom_of c))) (parse s')
           end
  end.

Definition compile (src : string) (flags : Z) : result pattern :=
  if negb ((flags =? 0) || (flags =? 16)) then Raise (ReError src)
  else match parse src with
       | Some ps => Ok {| pieces := ps; dotall := flags =? 16 |}
       | None => Raise (ReError src)
       end.

Definition atom_matches (dotall : bool) (a : atom) (c : ascii) : bool :=
  match a with
  | Lit c' => Ascii.eqb c c'
  | AnyChar => dotall || negb (Ascii.eqb c newline)
  end.

(** The text matched by [re] at the head of [s], preferring the longest
    repetition of every starred atom, as Python's greedy [*] does. *)
Fixpoint match_here (dotall : bool) (re : list piece) (at_start : bool)
    (s : string) : option string :=
  match re with
  | [] => Some EmptyString
  | Bol :: re' => if at_start then match_here dotall re' at_start s else None
  | Eol :: re' =>
      match s with
      | EmptyString => match_here dotall re' at_start s
      | String c EmptyString =>
          if Ascii.eqb c newline then match_here dotall re' at_start s
          else None
      | _ => None
      end
  | One a :: re' =>
      match s with
      | String c s' =>
          if atom_matches dotall a c
          then option_map (String c) (match_here dotall re' false s')
          else None
      | EmptyString => None
      end
  | Star a :: re' =>
      (fix star (at_start : bool) (s : string) : option string :=
         match s with
         | String c s' =>
             if atom_matches dotall a c then
               match star false s' with
               | Some m => Some (String c m)
               | None => match_here dotall re' at_start s
               end
             else match_here dotall re' at_start s
         | EmptyString => match_here dotall re' at_start s
         end) at_start s
  end.

Fixpoint search_from (p : pattern) (at_start : bool) (s : string)
  : option string :=
  match match_here p.(dotall) p.(pieces) at_start s with
  | Some m => Some m
  | None =>
      match s with
      | String _ s' => search_from p false s'
      | EmptyString => None
      end
  end.

Definition search (p : pattern) (s : string) : option string :=
  search_from p true s.

#[export] Instance regex : Regex :=
  {| Pattern := pattern; re_compile := compile; re_search := search |}.

End MiniRe.

(** Documents as trees of elements and strings, searched in document
    order. *)
Module Html.
Import MiniRe.

#[warnings="-register-all"] Inductive html : Type :=
| Elem (name : string) (attrs : list (string * string)) (children : list html)
| Text (s : string).

(** The nodes below [h], in document order. *)
Fixpoint descendants (h : html) : list html :=
  match h with
  | Elem _ _ children =>
      (fix go (l : list html) : list html :=
         match l with
         | [] => []
         | c :: l' => c :: descendants c ++ go l'
         end) children
  | Text _ => []
  end.

Definition attr_matches (attrs : list (string * string))
    (c : option string * pattern) : bool :=
  match c with
  | (Some k, p) =>
      match SoupParse.assoc k attrs with
      | Some v => bool_decide (is_Some (search p v))
      | None => false
      end
  | (None, _) => false
  end.

Definition matches (name : pattern) (attrs : list (option string * pattern))
    (h : html) : bool :=
  match h with
  | Elem n a _ =>
      bool_decide (is_Some (search name n)) && forallb (attr_matches a) attrs
  | Text _ => false
  end.

Definition is_named (name : string) (h : html) : bool :=
  match h with
  | Elem n _ _ => String.eqb n name
  | Text _ => false
  end.

Definition strings (h : html) : list string :=
  flat_map (fun d => match d with Text s => [s] | Elem _ _ _ => [] end)
           (descendants h).

Definition to_child (h : html) : child html :=
  match h with
  | Text s => ChildString s
  | Elem _ _ _ => ChildTag h
  end.

#[export] Instance soup : Soup :=
  {| Tag := html;
     find_all := fun h name attrs =>
       List.filter (matches name attrs) (descendants h);
     find_all_text := strings;
     find_all_named := fun h name =>
       List.filter (is_named name) (descendants h);
     find := fun h name =>
       List.find (is_named name) (descendants h);
     tag_text := fun h => String.concat "" (strings h);
     tag_name := fun h =>
       match h with Elem n _ _ => n | Text _ => "" end;
     tag_attrs := fun h =>
       match h with Elem _ a _ => list_to_map a | Text _ => ∅ end;
     tag_children := fun h =>
       match h with Elem _ _ cs => map to_child cs | Text _ => [] end |}.

End Html.

(** [urljoin] for an absolute reference and for a reference that starts
    with a slash; [urlencode] for keys and values that need no quoting. *)
Module SimpleUrl.

(** The part of [url] from the first ["//"] on, split at the next slash:
    the host and the path. *)
Fixpoint upto_slash (s : string) : string :=
  match s with
  | EmptyString => EmptyString
  | String c s' => if Ascii.eqb c "/" then EmptyString
                   else String c (upto_slash s')
  end.

Fixpoint origin (url : string) : string :=
  match url with
  | String ":" (String "/" (String "/" rest)) => "://" +:+ upto_slash rest
  | String c s' => String c (origin s')
  | EmptyString => EmptyString
  end.

Definition join (base ref : string) : string :=
  if Py.startswith ref "http://" || Py.startswith ref "https://" then ref
  else if Py.startswith ref "/" then origin base +:+ ref
  else origin base +:+ "/" +:+ ref.

Definition encode (params : list (string * string)) : string :=
  String.concat "&" (map (fun '(k, v) => k +:+ "=" +:+ v) params).

#[export] Instance urllib : UrlLib :=
  {| urljoin := join; urlencode := encode |}.

End SimpleUrl.

(** ** Example documents and configurations *)

Module Examples.
Import MiniRe Html SimpleUrl SoupParse.

(** [re.compile("^" + name + "$")] for a name of plain letters. *)
Definition anchored (name : string) : pattern :=
  {| pieces := Bol :: map (fun c => One (Lit c)) (list_ascii_of_string name)
               ++ [Eol];
     dotall := false |}.

(** [re.compile(text)] for a text of plain letters. *)
Definition anchored_free (text : string) : pattern :=
  {| pieces := map (fun c => One (Lit c)) (list_ascii_of_string text);
     dotall := false |}.

(** [<ul><li><a href="/1">one</a></li><li><a href="/2">two</a></li></ul>] *)
Definition li1 : html := Elem "li" [] [Elem "a" [("href", "/1")] [Text "one"]].
Definition li2 : html := Elem "li" [] [Elem "a" [("href", "/2")] [Text "two"]].
Definition listing : html :=
  Elem "[document]" [] [Elem "ul" [] [li1; li2]].

(** The term of [{element_name: li, start: 4, end: 5}] and the term of
    the bare string [a]. *)
Definition term_li : search_term :=
  {| term_el_name := anchored "li"; term_att_dict := [];
     term_start := "3"; term_end := "5" |}.
Definition term_a : search_term :=
  {| term_el_name := anchored "a"; term_att_dict := [];
     term_start := "0"; term_end := "len(new_tag_list)" |}.

(** Two items of class [item], each with a link. *)
Definition items : html :=
  Elem "[document]" []
    [Elem "body" []
       [Elem "div" [("class", "item")] [Elem "a" [("href", "/x")] [Text "T1"]];
        Elem "div" [("class", "item")] [Elem "a" [("href", "/y")] [Text "T2"]]]].

(** [{attribute_name: class}], with the defaults of [start] and [end]. *)
Definition limit_class : scope_limit :=
  LimitDict {| element_name := None; attribute_name := Some "class";
               attribute_value := None; start := 1; end_ := 31415 |}.

(** The pattern [.*]. *)
Definition dot_star : pattern :=
  {| pieces := [Star AnyChar]; dotall := false |}.

(** [title: {section: [a]}] and [url: {section: [a], location: url}] *)
Definition title_key : key_config :=
  {| section := Some [LimitStr "a"]; location := None;
     required_flag := None; regexps := None |}.
Definition url_key : key_config :=
  {| section := Some [LimitStr "a"]; location := Some (LocStr "url");
     required_flag := None; regexps := None |}.

(** [size: {section: [span], required: true}] *)
Definition size_key : key_config :=
  {| section := Some [LimitStr "span"]; location := None;
     required_flag := Some true; regexps := None |}.

(** [title: {location: {text: 1}}] *)
Definition first_text_key : key_config :=
  {| section := None; location := Some (LocDict "text" 1);
     required_flag := None; regexps := None |}.

(** Configuration A declares [size] required, configuration B declares
    no required key; both split the document into its [li] elements. *)
Definition config_A : config :=
  {| source := "http://site/"; sections := Some [LimitStr "li"];
     keys := [("title", title_key); ("url", url_key); ("size", size_key)] |}.
Definition config_B : config :=
  {| source := "http://site/"; sections := Some [LimitStr "li"];
     keys := [("title", title_key); ("url", url_key)] |}.

(** A configuration that reads the title from the first text node. *)
Definition config_first_text : config :=
  {| source := "http://site/"; sections := Some [LimitStr "li"];
     keys := [("title", first_text_key); ("url", url_key)] |}.

(** A configuration whose sections are the elements with a [class]. *)
Definition config_class : config :=
  {| source := "http://site/"; sections := Some [limit_class];
     keys := [("title", title_key); ("url", url_key)] |}.

(** The task that fetches [doc] whatever the source. *)
Definition serving (doc : html) : SoupParse.task :=
  {| fetch_soup := fun _ => Ok doc |}.

(** The records of the two list items. *)
Definition record1 : gmap string string :=
  {[ "title" := "one"; "url" := "http://site/1" ]}.
Definition record2 : gmap string string :=
  {[ "title" := "two"; "url" := "http://site/2" ]}.

(** A capability document whose generic searcher is available and whose
    tv searcher is not:
    [<caps><searching><search available="yes" supportedparams="q"/>
     <tv-search available="no" supportedparams="q,season,ep"/>
     </searching></caps>] *)
Definition caps : html :=
  Elem "[document]" []
    [Elem "caps" []
       [Elem "searching" []
          [Elem "search" [("available", "yes"); ("supportedparams", "q")] [];
           Elem "tv-search"
                [("available", "no"); ("supportedparams", "q,season,ep")]
                []]]].

(** What an indexer answers to a wrong key: a document without a
    [searching] element,
    [<error code="100" description="Incorrect user credentials"/>] *)
Definition error_reply : html :=
  Elem "[document]" []
    [Elem "error" [("code", "100");
                   ("description", "Incorrect user credentials")] []].

(** A capability document whose [searching] element lists no searcher,
    [<caps><searching></searching></caps>], and one whose generic searcher
    lacks the attribute [available]:
    [<caps><searching><search supportedparams="q"/></searching></caps>] *)
Definition empty_searching : html :=
  Elem "[document]" [] [Elem "caps" [] [Elem "searching" [] []]].

Definition search_without_available : html :=
  Elem "[document]" []
    [Elem "caps" []
       [Elem "searching" [] [Elem "search" [("supportedparams", "q")] []]]].

(** A validated torznab configuration and the world before [search]. *)
Definition indexer : Torznab.config :=
  {| Torznab.apikey := "k"; Torznab.categories := [];
     Torznab.searcher := "tv"; Torznab.website := "http://indexer/" |}.

Definition world0 : Torznab.world :=
  {| Torznab.self := {| Torznab.base_url := "http://indexer";
                        Torznab.supported_params := [];
                        Torznab.params := [("apikey", "k"); ("extended", "1")] |};
     Torznab.cfg := Some indexer;
     Torznab.requested := [];
     Torznab.warned := [] |}.

(** The task whose every request is answered with [doc]. *)
Definition answering (doc : html) : Torznab.task :=
  {| Torznab.requests_get := fun _ => Ok doc |}.

(** [{element_name: li, start: 4, end: 5}], which compiles to [term_li]. *)
Definition limit_li : scope_limit :=
  LimitDict {| element_name := Some "li"; attribute_name := None;
               attribute_value := None; start := 4; end_ := 5 |}.

(** [key_to_regexps] of a configuration with the keys [title] and [url]
    and no regexps. *)
Definition default_regexps : gmap string (list pattern) :=
  {[ "title" := [dot_star]; "url" := [dot_star] ]}.

(** The task whose every request raises an exception of the network,
    whose text is the url. *)
Definition unreachable : Torznab.task :=
  {| Torznab.requests_get := fun url => Raise (RequestError url) |}.

(** The dictionary [searchers] that [_setup_searcher] builds from [caps]. *)
Definition caps_searchers : gmap string (gmap string string) :=
  {[ "search" := {[ "available" := "yes"; "supportedparams" := "q" ]};
     "tv-search" := {[ "available" := "no";
                       "supportedparams" := "q,season,ep" ]} ]}.

(** The world after a search on the indexer that answers with [caps]. *)
Definition world1 : Torznab.world :=
  {| Torznab.self := {| Torznab.base_url := "http://indexer";
                        Torznab.supported_params := ["q"];
                        Torznab.params := [("apikey", "k"); ("extended", "1");
                                           ("t", "search")] |};
     Torznab.cfg := Some (Torznab.normalised indexer);
     Torznab.requested := ["http://indexer/api?apikey=k&extended=1&t=caps"];
     Torznab.warned :=
       ["'tv-search' searcher not availble, falling back to 'search'."] |}.

End Examples.

(** * Properties *)

(** ** Python primitives *)

Module PyFacts.

Lemma to_int_not_nil (z : Z) :
  Z.to_int z <> Decimal.Pos Decimal.Nil /\ Z.to_int z <> Decimal.Neg Decimal.Nil.
Proof.
  destruct z as [|p|p]; simpl; split; try discriminate;
    intros [= E]; exact (Unsigned.to_uint_nonnil p E).
Qed.

(** [str] never prints the text [len(new_tag_list)]. *)
Lemma str_not_len (z : Z) : String.eqb (Py.str z) "len(new_tag_list)" = false.
Proof.
  apply String.eqb_neq. intros E.
  pose proof (to_int_not_nil z) as [Hp Hn].
  pose proof (NilZero.isi (Z.to_int z) Hp Hn) as Hisi.
  unfold Py.str in E. rewrite E in Hisi. discriminate Hisi.
Qed.

(** [eval(str(z))] is [z]. *)
Lemma eval_str (z n : Z) : Py.eval (Py.str z) n = Ok z.
Proof.
  unfold Py.eval. rewrite str_not_len.
  pose proof (to_int_not_nil z) as [Hp Hn].
  unfold Py.str. rewrite (NilZero.isi _ Hp Hn).
  now rewrite DecimalZ.of_to.
Qed.

Lemma eval_len (n : Z) : Py.eval "len(new_tag_list)" n = Ok n.
Proof. reflexivity. Qed.

Lemma range_empty (a b : Z) : b <= a -> Py.range a b = [].
Proof.
  intros H. unfold Py.range.
  replace (Z.to_nat (b - a)) with 0%nat by lia. reflexivity.
Qed.

Lemma index_nonneg {A} (l : list A) (i : nat) (a : A) :
  l !! i = Some a -> Py.index l (Z.of_nat i) = Ok a.
Proof.
  intros H. unfold Py.index.
  pose proof (lookup_lt_Some _ _ _ H) as Hlt.
  cbv zeta.
  rewrite (proj2 (Z.leb_le 0 (Z.of_nat i))) by lia. cbv iota.
  rewrite (proj2 (Z.leb_le 0 (Z.of_nat i))) by lia.
  rewrite (proj2 (Z.ltb_lt (Z.of_nat i) (Z.of_nat (length l)))) by lia.
  cbn [andb]. rewrite Nat2Z.id, H. reflexivity.
Qed.

(** The loop over [range(a, b)] that copies [l[y]] is the slice
    [l[a:b]], for bounds within the list. *)
Lemma mapM_index_seq {A} (l : list A) (k i : nat) :
  (i + k <= length l)%nat ->
  R.mapM (Py.index l) (map (fun j => Z.of_nat i + Z.of_nat j) (seq 0 k))
  = Ok (take k (drop i l)).
Proof.
  revert i. induction k as [|k IH]; intros i Hle.
  - reflexivity.
  - destruct (lookup_lt_is_Some_2 l i ltac:(lia)) as [a Ha].
    cbn [seq map R.mapM]. rewrite Z.add_0_r, (index_nonneg l i a Ha).
    cbn [R.bind].
    rewrite <- seq_shift, map_map.
    erewrite map_ext; [rewrite (IH (S i)) by lia|intros j; simpl; lia].
    cbn [R.bind]. f_equal.
    rewrite (drop_S l a i Ha). reflexivity.
Qed.

Lemma mapM_index_range {A} (l : list A) (a b : Z) :
  0 <= a -> b <= Py.len l ->
  R.mapM (Py.index l) (Py.range a b)
  = Ok (take (Z.to_nat (b - a)) (drop (Z.to_nat a) l)).
Proof.
  intros Ha Hb. unfold Py.range, Py.len in *.
  destruct (Z.le_gt_cases b a) as [Hba|Hba].
  - replace (Z.to_nat (b - a)) with 0%nat by lia. reflexivity.
  - erewrite map_ext;
      [apply (mapM_index_seq l (Z.to_nat (b - a)) (Z.to_nat a)); lia|].
    intros j; simpl; lia.
Qed.

End PyFacts.

(** ** soup_parse: the tag resolver *)

Module ResolverFacts.
Import SoupParse.

Section WithLibraries.
Context `{SoupImpl : Soup}.

Lemma bind_lift_ok {A B} (a : A) (k : A -> W.t B) :
  W.bind (W.lift (Ok a)) k = k a.
Proof. unfold W.bind, W.lift. destruct (k a) as [r l]. reflexivity. Qed.

Lemma bind_ret {A B} (a : A) (k : A -> W.t B) : W.bind (W.ret a) k = k a.
Proof. apply bind_lift_ok. Qed.

Lemma bind_ok {A B} (a : A) (l : list warning) (k : A -> W.t B) :
  W.bind (Ok a, l) k = (fst (k a), l ++ snd (k a)).
Proof. unfold W.bind. destruct (k a) as [r l']. reflexivity. Qed.

(** The slice taken from the matches of one parent, in terms of the
    declared bounds [s] and [e] and the number [n] of matches. *)
Lemma scope_slice_value (scope_num x : nat) (term : search_term)
    (new_tag_list : list Tag) (s e : Z) :
  let n := Py.len new_tag_list in
  Py.eval term.(term_start) n = Ok s ->
  Py.eval term.(term_end) n = Ok e ->
  let a := if (s >=? e) || (s >=? n) then 0 else s in
  let b := if e >? n then n else e in
  fst (scope_slice scope_num x term new_tag_list)
  = R.mapM (Py.index new_tag_list) (Py.range a b).
Proof.
  intros n Hs He a b. unfold scope_slice, effective_start, effective_end.
  fold n. rewrite Hs, He. rewrite !bind_lift_ok.
  subst a b.
  destruct ((s >=? e) || (s >=? n)); destruct (e >? n);
    unfold W.bind, W.warn, W.ret, W.lift; cbn [fst snd];
    rewrite ?Hs, ?He, ?PyFacts.eval_str;
    try change (Py.eval "0" n) with (Ok 0 : result Z); reflexivity.
Qed.

Lemma foldM_ext {A S} (f g : S -> A -> W.t S) (acc : S) (l : list A) :
  (forall acc a, f acc a = g acc a) -> W.foldM f acc l = W.foldM g acc l.
Proof.
  intros Hfg. revert acc. induction l as [|a l IH]; intros acc; [reflexivity|].
  cbn [W.foldM]. rewrite Hfg. unfold W.bind.
  destruct (g acc a) as [[acc'|err] lg]; [rewrite IH|]; reflexivity.
Qed.

(** A loop that only appends what a pure function yields for each item
    returns the concatenation, and logs nothing. *)
Lemma foldM_append {A B} (g : A -> list B) (acc : list B) (l : list A) :
  W.foldM (fun acc a => W.ret (acc ++ g a)) acc l
  = (Ok (acc ++ concat (map g l)), []).
Proof.
  revert acc. induction l as [|a l IH]; intros acc.
  - cbn. now rewrite app_nil_r.
  - cbn [W.foldM map concat]. rewrite bind_ret, IH, app_assoc. reflexivity.
Qed.

Lemma descend_unfold (scope_num : nat) (terms : list search_term)
    (term : search_term) (xs : list (nat * Tag)) :
  terms !! scope_num = Some term ->
  descend scope_num terms xs = W.foldM (descend_body scope_num term) [] xs.
Proof.
  intros Hterm. unfold descend. apply foldM_ext. intros acc [x p].
  unfold term_at. rewrite Hterm, bind_lift_ok. reflexivity.
Qed.

Lemma flatten_unfold (scope_num : nat) (terms : list search_term)
    (term : search_term) (parents : list Tag) :
  terms !! scope_num = Some term ->
  flatten scope_num terms parents
  = (Ok (concat (map (fun p => find_all p term.(term_el_name)
                                        term.(term_att_dict)) parents)), []).
Proof.
  intros Hterm. unfold flatten.
  etransitivity;
    [|exact (foldM_append
               (fun p => find_all p term.(term_el_name) term.(term_att_dict))
               [] parents)].
  apply foldM_ext. intros acc p.
  unfold term_at. rewrite Hterm, bind_lift_ok. reflexivity.
Qed.

(** The resolver at a non-final depth: one pass of [descend], then the
    next depth. *)
Lemma resolver_nonfinal (element_tag_list : list (list Tag))
    (scope_num : nat) (terms : list search_term) (parents : list Tag) :
  (scope_num + 1 < length terms)%nat ->
  element_tag_list !! scope_num = Some parents ->
  _get_master_tag_list element_tag_list scope_num terms
  = let* temp_list := descend scope_num terms (enumerate parents) in
    _get_master_tag_list (element_tag_list ++ [temp_list]) (scope_num + 1)
                         terms.
Proof.
  intros Hlt Hparents. simp _get_master_tag_list.
  destruct (lt_dec (scope_num + 1) (length terms)) as [Hl|Hn]; [|lia].
  cbn. unfold scope_at. rewrite Hparents. cbn.
  now destruct (W.bind _ _).
Qed.

(** The resolver at the final depth. *)
Lemma resolver_final (element_tag_list : list (list Tag))
    (scope_num : nat) (terms : list search_term) (parents : list Tag) :
  ~ (scope_num + 1 < length terms)%nat ->
  element_tag_list !! scope_num = Some parents ->
  _get_master_tag_list element_tag_list scope_num terms
  = flatten scope_num terms parents.
Proof.
  intros Hlt Hparents. simp _get_master_tag_list.
  destruct (lt_dec (scope_num + 1) (length terms)) as [Hn|Hl]; [lia|].
  cbn. unfold scope_at. rewrite Hparents. cbn.
  now destruct (flatten _ _ _).
Qed.

(** C1.  At a non-final depth the resolver slices the matches of every
    parent separately.  For a parent with [n] matches and declared bounds
    [s] and [e]: if [s >= e] or [s >= n], a warning is logged, the start
    used is ["0"] and the slice (which is produced, not an exception) is the
    first [min e n] matches; if [e > n], a warning is logged and the end
    used is [str(n)], which evaluates to [n], so that the slice runs to the
    last match. *)
Theorem bounds_clamped_per_parent (element_tag_list : list (list Tag))
    (scope_num : nat) (terms : list search_term) (parents : list Tag)
    (term : search_term) :
  (scope_num + 1 < length terms)%nat ->
  element_tag_list !! scope_num = Some parents ->
  terms !! scope_num = Some term ->
  _get_master_tag_list element_tag_list scope_num terms
  = (let* temp_list :=
       W.foldM (descend_body scope_num term) [] (enumerate parents) in
     _get_master_tag_list (element_tag_list ++ [temp_list]) (scope_num + 1)
                          terms)
  /\ forall (x : nat) (parent : Tag) (s e : Z),
      parents !! x = Some parent ->
      let new_tag_list :=
        find_all parent term.(term_el_name) term.(term_att_dict) in
      let n := Py.len new_tag_list in
      Py.eval term.(term_start) n = Ok s ->
      Py.eval term.(term_end) n = Ok e ->
      (s >= e \/ s >= n ->
       effective_start scope_num x term new_tag_list
       = (Ok "0", [StartAfterEnd (s + 1) (Z.of_nat scope_num + 1) e n
                                 (Z.of_nat x + 1)])
       /\ Py.eval "0" n = Ok 0
       /\ fst (scope_slice scope_num x term new_tag_list)
          = Ok (take (Z.to_nat (Z.min e n)) new_tag_list))
      /\ (e > n ->
          effective_end scope_num x term new_tag_list
          = (Ok (Py.str n), [EndAfterActual e (Z.of_nat scope_num + 1) n
                                            (Z.of_nat x + 1)])
          /\ Py.eval (Py.str n) n = Ok n
          /\ (0 <= s ->
              fst (scope_slice scope_num x term new_tag_list)
              = Ok (drop (Z.to_nat (if (s >=? e) || (s >=? n) then 0 else s))
                         new_tag_list))).
Proof.
  intros Hlt Hparents Hterm. split.
  - rewrite (resolver_nonfinal _ _ _ parents Hlt Hparents).
    now rewrite (descend_unfold _ _ term).
  - intros x parent s e _ new_tag_list n Hs He. split.
    + intros Hreset.
      assert (Hb : (s >=? e) || (s >=? n) = true).
      { apply orb_true_iff. destruct Hreset; [left|right]; apply Z.geb_le; lia. }
      split; [|split; [reflexivity|]].
      * unfold effective_start. fold n. rewrite Hs, He, !bind_lift_ok, Hb.
        reflexivity.
      * rewrite (scope_slice_value _ _ _ _ s e Hs He). fold n. rewrite Hb.
        assert (Hmin : (if e >? n then n else e) = Z.min e n).
        { destruct (Z.gtb_spec e n); lia. }
        rewrite Hmin, PyFacts.mapM_index_range by (unfold n; lia).
        now rewrite Z.sub_0_r.
    + intros Hclamp.
      assert (Hb : (e >? n) = true) by (apply Z.gtb_lt; lia).
      split; [|split; [apply PyFacts.eval_str|]].
      * unfold effective_end. fold n. rewrite He, !bind_lift_ok, Hb.
        reflexivity.
      * intros Hs0.
        rewrite (scope_slice_value _ _ _ _ s e Hs He). fold n. rewrite Hb.
        set (a := if (s >=? e) || (s >=? n) then 0 else s).
        assert (Ha : 0 <= a <= n).
        { subst a. destruct (s >=? e); [unfold n, Py.len; cbn; lia|].
          destruct (Z.geb_spec s n); cbn; unfold n, Py.len in *; lia. }
        rewrite PyFacts.mapM_index_range by (unfold n in *; lia).
        f_equal. apply take_ge. rewrite length_drop. unfold n, Py.len in *. lia.
Qed.

(** C8.  At the final depth nothing is sliced: the result is, parent by
    parent in the order of the list carried into that depth, every match
    of the final search term, in the order [find_all] yields them, and no
    warning is logged. *)
Theorem final_depth_concatenates (element_tag_list : list (list Tag))
    (scope_num : nat) (terms : list search_term) (parents : list Tag)
    (term : search_term) :
  ~ (scope_num + 1 < length terms)%nat ->
  element_tag_list !! scope_num = Some parents ->
  terms !! scope_num = Some term ->
  _get_master_tag_list element_tag_list scope_num terms
  = (Ok (concat (map (fun parent =>
                        find_all parent term.(term_el_name)
                                 term.(term_att_dict)) parents)), []).
Proof.
  intros Hfinal Hparents Hterm.
  rewrite (resolver_final _ _ _ parents Hfinal Hparents).
  now apply flatten_unfold.
Qed.

End WithLibraries.
End ResolverFacts.

Module ResolverExamples.
Import MiniRe Html Examples SoupParse ResolverFacts.

(** The bounds [start: 4, end: 5] on the two [li] matches of the list:
    the start is reset and the end is clamped. *)
Lemma bounds_clamped_per_parent_witness :
  effective_start 0 0 term_li [li1; li2]
  = (Ok "0", [StartAfterEnd 4 1 5 2 1])
  /\ effective_end 0 0 term_li [li1; li2]
     = (Ok "2", [EndAfterActual 5 1 2 1])
  /\ fst (scope_slice 0 0 term_li [li1; li2]) = Ok [li1; li2].
Proof.
  destruct (bounds_clamped_per_parent (SoupImpl := Html.soup)
              [[listing]] 0 [term_li; term_a] [listing] term_li
              ltac:(simpl; lia) eq_refl eq_refl) as [_ H].
  destruct (H 0%nat listing 3 5 eq_refl eq_refl eq_refl) as [H1 H2].
  destruct (H1 ltac:(right; vm_compute; discriminate)) as (E1 & _ & S1).
  destruct (H2 ltac:(vm_compute; reflexivity)) as (E2 & _ & _).
  split; [exact E1|split; [exact E2|exact S1]].
Defined.

(** The bare term [a] at the final depth, below the two items. *)
Lemma final_depth_concatenates_witness :
  _get_master_tag_list [[listing]; [li1; li2]] 1 [term_li; term_a]
  = (Ok [Elem "a" [("href", "/1")] [Text "one"];
         Elem "a" [("href", "/2")] [Text "two"]], []).
Proof.
  exact (final_depth_concatenates (SoupImpl := Html.soup)
           [[listing]; [li1; li2]] 1 [term_li; term_a] [li1; li2] term_a
           ltac:(simpl; lia) eq_refl eq_refl).
Defined.

End ResolverExamples.

(** ** soup_parse: the extractor *)

Module ExtractorFacts.
Import SoupParse.

Lemma prefix_cons (a : ascii) (p s : string) :
  String.prefix (String a p) s = true ->
  exists s', s = String a s' /\ String.prefix p s' = true.
Proof.
  destruct s as [|b s]; cbn [String.prefix]; [discriminate|].
  destruct (ascii_dec a b) as [->|]; [eauto|discriminate].
Qed.

(** No string starts with both ["http://"] and ["https://"]. *)
Lemma not_both_schemes (s : string) :
  Py.startswith s "http://" = true -> Py.startswith s "https://" = true -> False.
Proof.
  unfold Py.startswith. intros H1 H2.
  do 4 (apply prefix_cons in H1 as (? & -> & H1);
        apply prefix_cons in H2 as (? & [= <-] & H2)).
  apply prefix_cons in H1 as (? & -> & H1).
  apply prefix_cons in H2 as (? & E & H2). discriminate E.
Qed.

Section WithLibraries.
Context `{SoupImpl : Soup} `{UrlImpl : UrlLib}.

(** C5.  The condition of line 381 holds for every string, so for the
    location ['url'] every [href] read from the tag is joined to the source
    url, absolute or not. *)
Theorem url_join_guard_always_true :
  (forall new_section : string, needs_join new_section = true)
  /\ (forall (url key : string) (sec_num : Z) (tag : Tag),
       locate url key sec_num tag (LocStr "url")
       = let* href := W.lift (getitem tag "href") in
         W.ret (urljoin url href)).
Proof.
  assert (Hguard : forall s, needs_join s = true).
  { intros s. unfold needs_join.
    destruct (Py.startswith s "http://") eqn:E1; [|reflexivity].
    destruct (Py.startswith s "https://") eqn:E2; [|reflexivity].
    destruct (not_both_schemes s E1 E2). }
  split; [exact Hguard|].
  intros url key sec_num tag. unfold locate. cbn [String.eqb Ascii.eqb].
  change (String.eqb "url" "text") with false. cbv iota.
  unfold W.bind, W.lift. destruct (getitem tag "href") as [href|err];
    [rewrite Hguard|]; reflexivity.
Qed.




(** X28.  With a location [{'text': N}] the string handed to the regexps
    is empty whatever the tag holds: the text node that line 394 picks is
    bound to [new_section_list], never to [new_section]. *)
Lemma locate_text_index (url key : string) (sec_num : Z) (tag : Tag)
    (N : Z) (new_section : string) (log : list warning) :
  locate url key sec_num tag (LocDict "text" N) = (Ok new_section, log) ->
  new_section = "".
Proof.
  unfold locate. change (String.eqb "text" "text") with true. cbv iota.
  destruct (find_all_text tag) as [|t0 ts]; [now intros [= <- _]|].
  destruct (_ >? _); [|now intros [= <- _]].
  unfold W.bind, W.lift, W.ret.
  destruct (Py.index _ _); [now intros [= <- _]|discriminate].
Qed.

(** [isvalid]: every key of [self.required], then the host's check. *)
Lemma isvalid_spec (self : t) (entry : Entry) :
  isvalid self entry = true
  <-> Forall (fun key => is_Some (entry !! key)) self.(required)
      /\ is_Some (entry !! "title") /\ is_Some (entry !! "url").
Proof.
  unfold isvalid. induction (required self) as [|key rest IH]; cbn.
  - unfold entry_isvalid. rewrite andb_true_iff, !bool_decide_eq_true.
    rewrite Forall_nil. tauto.
  - rewrite Forall_cons. case_bool_decide; [rewrite IH; tauto|].
    split; [discriminate|tauto].
Qed.



(** What the first loop does to the instance: the keys declared required
    are appended to whatever [self.required] already held. *)
Lemma scan_keys_required (self self' : t)
    (m m' : gmap string (list Pattern)) (items : list (string * key_config)) :
  scan_keys self m items = (Ok m', self') ->
  self'.(required) = self.(required) ++ declared_required items.
Proof.
  unfold declared_required. revert self m.
  induction items as [|[key value] items IH]; intros self m; cbn.
  - intros [= _ <-]. now rewrite app_nil_r.
  - destruct (compile_regexp_dict_list _); [|discriminate].
    intros Hscan. apply IH in Hscan. rewrite Hscan.
    destruct (required_flag value) as [[|]|]; cbn;
      [now rewrite <- app_assoc|reflexivity|reflexivity].
Qed.

Lemma extract_sections_numbered (self : t) (cfg : config)
    (key_to_regexps : gmap string (list Pattern)) (sections : list Tag) :
  forall (number : nat -> Z) (entries acc : list Entry) (sec_num : Z),
    (forall i, number i = sec_num + 1 + Z.of_nat i) ->
    Forall2 (fun '(n, section) entry =>
               fst (extract_section cfg key_to_regexps n section) = Ok entry)
            (imap (fun i section => (number i, section)) sections) entries ->
    fst (extract_sections self cfg key_to_regexps sec_num sections acc)
    = Ok (acc ++ List.filter (isvalid self) entries).
Proof.
  induction sections as [|section sections IH];
    intros number entries acc sec_num Hnumber.
  - intros Hall. apply Forall2_nil_inv_l in Hall as ->. cbn.
    now rewrite app_nil_r.
  - cbn [imap]. intros Hall.
    apply Forall2_cons_inv_l in Hall as (entry & rest & Hentry & Hrest & ->).
    rewrite Hnumber, Z.add_0_r in Hentry.
    cbn [extract_sections List.filter].
    destruct (extract_section cfg key_to_regexps (sec_num + 1) section)
      as [r l] eqn:E. cbn in Hentry. subst r. rewrite ResolverFacts.bind_ok.
    cbn [fst]. rewrite (IH (number ∘ S) rest _ (sec_num + 1)).
    + destruct (isvalid self entry); [now rewrite <- app_assoc|reflexivity].
    + intros i. unfold compose. rewrite Hnumber. lia.
    + exact Hrest.
Qed.

(** X26.  The loop over the sections keeps exactly the records that pass
    [isvalid], in the order of the sections: the record of one section
    does not bear on another's. *)
Lemma extract_sections_filter (self : t) (cfg : config)
    (key_to_regexps : gmap string (list Pattern)) (sections : list Tag)
    (entries : list Entry) :
  Forall2 (fun '(n, section) entry =>
             fst (extract_section cfg key_to_regexps n section) = Ok entry)
          (imap (fun i section => (1 + Z.of_nat i, section)) sections)
          entries ->
  fst (extract_sections self cfg key_to_regexps 0 sections [])
  = Ok (List.filter (isvalid self) entries).
Proof.
  intros Hall.
  now rewrite (extract_sections_numbered self cfg key_to_regexps sections
                 (fun i => 1 + Z.of_nat i) entries [] 0).
Qed.

End WithLibraries.
End ExtractorFacts.

(** ** soup_parse: the scope-limiter compiler *)

Module CompilerFacts.
Import SoupParse.

Section WithLibraries.
Context `{SoupImpl : Soup}.

(** A bare string: the anchored name, no attribute, all matches. *)
Lemma tag_limiter_item_str (name : string) :
  _tag_limiter_item (LimitStr name)
  = let? el_name := re_compile ("^" +:+ name +:+ "$") 0 in
    Ok {| term_el_name := el_name; term_att_dict := [];
          term_start := "0"; term_end := "len(new_tag_list)" |}.
Proof. reflexivity. Qed.

(** An object: the bounds of the compiled term.  The start evaluates to
    the declared start minus one; the end to the declared end, or to the
    number of matches for the value 31415. *)
Lemma tag_limiter_item_bounds (d : limit_dict) (term : search_term) (n : Z) :
  _tag_limiter_item (LimitDict d) = Ok term ->
  Py.eval term.(term_start) n = Ok (d.(start) - 1)
  /\ Py.eval term.(term_end) n
     = Ok (if d.(end_) =? 31415 then n else d.(end_)).
Proof.
  unfold _tag_limiter_item.
  destruct (if _ && _ then _ else _) as [att_dict|]; [|discriminate].
  cbn [R.bind]. destruct (re_compile _ 0) as [el|]; [|discriminate].
  intros [= <-]. cbn [term_start term_end]. split.
  - apply PyFacts.eval_str.
  - destruct (end_ d =? 31415); [reflexivity|apply PyFacts.eval_str].
Qed.

(** An object: the name pattern is compiled from what an f-string prints
    for [limit.get('element_name')], which is [None] for an absent name. *)
Lemma tag_limiter_item_name (d : limit_dict) (term : search_term) :
  _tag_limiter_item (LimitDict d) = Ok term ->
  re_compile ("^" +:+ Py.format_opt d.(element_name) +:+ "$") 0
  = Ok term.(term_el_name).
Proof.
  unfold _tag_limiter_item.
  destruct (if _ && _ then _ else _) as [att_dict|]; [|discriminate].
  cbn [R.bind]. destruct (re_compile _ 0) as [el|]; [|discriminate].
  now intros [= <-].
Qed.

End WithLibraries.
End CompilerFacts.

(** ** The concrete regular expressions *)

Module MiniReFacts.
Import MiniRe.



End MiniReFacts.

(** ** soup_parse: the claims about the extractor *)

Module ExtractorClaims.
Import MiniRe Html SimpleUrl Examples SoupParse.

(** C2, at [{attribute_name: class}].  The compiled name pattern is
    [^None$], the text an f-string prints for the absent
    [element_name]: it does not match [div], and the document with two
    [div class="item"] elements yields no section at all. *)
Theorem absent_element_name_compiles_to_None :
  _tag_limiter [limit_class]
  = Ok [{| term_el_name := anchored "None";
           term_att_dict :=
             [(Some "class",
               {| pieces := [Bol; Star AnyChar; Eol]; dotall := false |})];
           term_start := "0"; term_end := "len(new_tag_list)" |}]
  /\ search (anchored "None") "div" = None
  /\ sectionize config_class items = (Ok [], [])
  /\ on_task_input __init__ (serving items) config_class
     = ((Ok [], []), __init__).
Proof. repeat split; vm_compute; reflexivity. Qed.

(** C3, at [title: {location: {text: 1}}] on the list document.  The
    first non-blank text node of the first item is [one], yet the title
    is not set: the record of the item holds the url only, and as the
    title is mandatory no record is returned. *)
Theorem text_index_leaves_field_unset :
  List.filter (fun t => Py.truthy (Py.strip t)) (find_all_text li1) = ["one"]
  /\ locate "http://site/" "title" 1 li1 (LocDict "text" 1) = (Ok "", [])
  /\ extract_section config_first_text
       {[ "title" := [dot_star]; "url" := [dot_star] ]} 1 li1
     = (Ok {[ "url" := "http://site/1" ]}, [])
  /\ on_task_input __init__ (serving listing) config_first_text
     = ((Ok [], []), __init__).
Proof. repeat split; vm_compute; reflexivity. Qed.

(** C4, at configuration A (which declares [size] required) followed by
    configuration B (which declares nothing required) on one plugin
    instance.  B alone yields the two records; after A the instance
    still requires [size], and B yields none. *)
Theorem required_keys_accumulate_across_calls :
  on_task_input __init__ (serving listing) config_B
  = ((Ok [record1; record2], []), __init__)
  /\ snd (on_task_input __init__ (serving listing) config_A)
     = {| required := ["size"] |}
  /\ on_task_input
       (snd (on_task_input __init__ (serving listing) config_A))
       (serving listing) config_B
     = ((Ok [], []), {| required := ["size"] |}).
Proof. repeat split; vm_compute; reflexivity. Qed.

(** C7, at the second call of the instance of C4.  Configuration B
    declares no key required, and the record of the first item holds
    both mandatory fields; it is rejected all the same, because
    [isvalid] reads the keys an earlier call left in [self.required]. *)
Theorem stale_required_key_drops_valid_record :
  declared_required config_B.(keys) = []
  /\ extract_section config_B
       {[ "title" := [dot_star]; "url" := [dot_star] ]} 1 li1
     = (Ok record1, [])
  /\ entry_isvalid record1 = true
  /\ isvalid {| required := ["size"] |} record1 = false
  /\ fst (on_task_input {| required := ["size"] |} (serving listing)
                        config_B)
     = (Ok [], []).
Proof. repeat split; vm_compute; reflexivity. Qed.



End ExtractorClaims.

(** ** torznab *)

Module TorznabFacts.
Import Torznab.

(** On a searcher whose element carries the attributes it reads,
    [_check_searcher] answers whether the searcher is advertised. *)
Lemma check_searcher_advertised (searchers : gmap string (gmap string string))
    (searcher : string) :
  checkable searchers searcher ->
  _check_searcher searchers searcher = Ok (advertised searchers searcher).
Proof.
  unfold checkable, _check_searcher, advertised. intros Hwf.
  destruct (searchers !! searcher) as [attrs|]; [|reflexivity].
  destruct (Hwf attrs eq_refl) as [[available Ha] Hsp].
  unfold attr. rewrite Ha. cbn [R.bind].
  destruct (String.eqb_spec available "yes") as [->|Hne].
  - destruct (Hsp Ha) as [sp Hs]. rewrite Hs. cbn.
    now rewrite bool_decide_eq_true_2.
  - rewrite bool_decide_eq_false_2; [reflexivity|congruence].
Qed.

Lemma advertised_supported (searchers : gmap string (gmap string string))
    (searcher : string) :
  advertised searchers searcher = true ->
  exists sp, supported_of searchers searcher = Ok sp.
Proof.
  unfold advertised, supported_of, attr.
  destruct (searchers !! searcher) as [attrs|]; [|discriminate].
  destruct (attrs !! "supportedparams") as [sp|]; cbn.
  - eauto.
  - now rewrite andb_false_r.
Qed.

Lemma advertised_nonempty (searchers : gmap string (gmap string string))
    (searcher : string) :
  advertised searchers searcher = true -> searchers <> ∅.
Proof.
  unfold advertised. intros H ->. now rewrite lookup_empty in H.
Qed.

(** The only alias that is [search] is the one of [search]. *)
Lemma alias_of_search (searcher alias : string) :
  alias_of searcher = Ok alias ->
  (searcher = "search" -> alias = "search").
Proof. intros H ->. now injection H as <-. Qed.

Section WithLibraries.
Context `{SoupImpl : Soup} `{UrlImpl : UrlLib}.

(** X27.  The searcher setup on a well-formed capability document: one
    with a
    [searching] element in which the elements of the requested searcher
    and of [search], if listed, carry the attributes that are read.  The
    requested searcher is selected when advertised; otherwise, for a
    request other than [search], [search] is selected (with a warning)
    when advertised; and a plugin error is raised exactly when neither is
    advertised. *)
Lemma setup_searcher_selects_or_raises (xml_root : Tag)
    (searcher alias : string) (searchers : gmap string (gmap string string))
    (w : world) :
  searchers_of xml_root = Ok searchers ->
  alias_of searcher = Ok alias ->
  checkable searchers alias ->
  checkable searchers "search" ->
  (advertised searchers alias = true ->
   exists sp,
     supported_of searchers alias = Ok sp
     /\ _setup_searcher xml_root searcher w
        = (Ok tt,
           {| self := {| base_url := w.(self).(base_url);
                         supported_params := sp;
                         params := setitem "t" searcher w.(self).(params) |};
              cfg := w.(cfg); requested := w.(requested);
              warned := w.(warned) |}))
  /\ (advertised searchers alias = false ->
      searcher <> "search" ->
      advertised searchers "search" = true ->
      exists sp,
        supported_of searchers "search" = Ok sp
        /\ _setup_searcher xml_root searcher w
           = (Ok tt,
              {| self := {| base_url := w.(self).(base_url);
                            supported_params := sp;
                            params := setitem "t" "search" w.(self).(params) |};
                 cfg := w.(cfg); requested := w.(requested);
                 warned :=
                   w.(warned)
                   ++ ["'" +:+ alias
                       +:+ "' searcher not availble, falling back to 'search'."]
              |}))
  /\ ((exists msg,
         fst (_setup_searcher xml_root searcher w) = Raise (PluginError msg))
      <-> advertised searchers alias = false
          /\ advertised searchers "search" = false).
Proof.
  intros Hdoc Halias Hwf Hwfs.
  pose proof (check_searcher_advertised _ _ Hwf) as Hcheck.
  pose proof (check_searcher_advertised _ _ Hwfs) as Hchecks.
  unfold _setup_searcher, bind, lift, get_self, set_self, warn, raise, ret.
  rewrite Hdoc.
  split; [|split].
  - intros Hadv. destruct (advertised_supported _ _ Hadv) as [sp Hsp].
    exists sp. split; [exact Hsp|].
    rewrite bool_decide_eq_false_2 by (eapply advertised_nonempty; eauto).
    now rewrite Halias, Hcheck, Hadv, Hsp.
  - intros Hnot Hne Hadv. destruct (advertised_supported _ _ Hadv) as [sp Hsp].
    exists sp. split; [exact Hsp|].
    rewrite bool_decide_eq_false_2 by (eapply advertised_nonempty; eauto).
    rewrite Halias, Hcheck, Hnot.
    rewrite (proj2 (String.eqb_neq searcher "search") Hne). cbn [negb].
    now rewrite Hchecks, Hadv, Hsp.
  - case_bool_decide as Hempty.
    { cbn [fst]. split; [|eauto]. intros _. subst searchers.
      unfold advertised. now rewrite !lookup_empty. }
    rewrite Halias, Hcheck.
    destruct (advertised searchers alias) eqn:Hadv.
    { destruct (advertised_supported _ _ Hadv) as [sp Hsp]. rewrite Hsp.
      cbn [fst]. split; [intros [msg [=]]|intros [[=] _]]. }
    destruct (String.eqb_spec searcher "search") as [Heq|Hne]; cbn [negb].
    { cbn [fst]. split; [intros _|eauto]. split; [reflexivity|].
      now rewrite <- (alias_of_search _ _ Halias Heq). }
    rewrite Hchecks. destruct (advertised searchers "search") eqn:Hadvs.
    { destruct (advertised_supported _ _ Hadvs) as [sp Hsp]. rewrite Hsp.
      cbn [fst]. split; [intros [msg [=]]|intros [_ [=]]]. }
    cbn [fst]. split; eauto.
Qed.

(** [_setup_searcher] sends no request. *)
Lemma setup_searcher_requested (xml_root : Tag) (searcher : string)
    (w w' : world) (r : result unit) :
  _setup_searcher xml_root searcher w = (r, w') ->
  w'.(requested) = w.(requested).
Proof.
  unfold _setup_searcher, bind, lift, get_self, set_self, warn, raise, ret.
  destruct (String.eqb searcher "search"); cbn [negb]; cbv beta iota.
  all: repeat match goal with
         | |- context [match ?x with _ => _ end] =>
             match x with
             | (_, _) => fail 1
             | _ => destruct x; cbv beta iota
             end
         | |- context [if ?b then _ else _] => destruct b; cbv beta iota
         end; intros [= _ <-]; reflexivity.
Qed.

(** The decorator is inert on a method that returns, and never touches
    the state the method leaves. *)
Lemma internet_ok {A} (method : M A) (w w' : world) (a : A) :
  internet method w = (Ok a, w') -> method w = (Ok a, w').
Proof.
  unfold internet. destruct (method w) as [[a0|e] w0]; intros [=];
    subst; reflexivity.
Qed.

Lemma internet_state {A} (method : M A) (w : world) :
  snd (internet method w) = snd (method w).
Proof. unfold internet. now destruct (method w) as [[a|e] w']. Qed.

(** [_setup_caps] sends one request, to the capabilities url. *)
Lemma setup_caps_requested (tsk : task) (searcher : string)
    (categories : list Z) (w w' : world) :
  _setup_caps tsk searcher categories w = (Ok tt, w') ->
  w'.(requested)
  = w.(requested)
    ++ [(w.(self).(base_url) +:+ "/api?")
        +:+ urlencode (setitem "t" "caps" w.(self).(params))].
Proof.
  unfold _setup_caps. intros Hcaps. apply internet_ok in Hcaps.
  revert Hcaps.
  unfold _setup_categories, _build_url, request, bind, get_self, ret.
  cbv beta iota.
  destruct (requests_get tsk _) as [root|]; [|discriminate].
  destruct (_setup_searcher _ _ _) as [[[]|] w1] eqn:Hsetup; [|discriminate].
  apply setup_searcher_requested in Hsetup. cbn in Hsetup.
  intros [= <-]. exact Hsetup.
Qed.

(** C10.  Whenever [search] returns, it returns the empty list, and the
    one request it has sent is the capabilities request: no search query
    goes out. *)
Theorem search_returns_no_results (tsk : task) (entry : gmap string string)
    (w w' : world) (results : list (gmap string string)) :
  search tsk entry w = (Ok results, w') ->
  results = []
  /\ exists c, w.(cfg) = Some c
               /\ w'.(requested) = w.(requested) ++ [caps_url c].
Proof.
  unfold search, _setup, bind, get_cfg, get_self, set_self, set_cfg, ret.
  destruct (cfg w) as [c|] eqn:Hc; [|discriminate].
  cbv beta iota.
  destruct (String.eqb (searcher c) "tv"); cbv beta iota;
    cbn [self cfg requested warned base_url params supported_params
         apikey website searcher categories];
    rewrite ?Hc; cbv beta iota;
    cbn [self cfg requested warned base_url params supported_params
         apikey website searcher categories];
    (destruct (_setup_caps _ _ _ _) as [[[]|] w1] eqn:Hcaps; [|discriminate]);
    apply setup_caps_requested in Hcaps; cbn in Hcaps;
    intros [= <- <-]; (split; [reflexivity|]);
    exists c; (split; [reflexivity|exact Hcaps]).
Qed.

End WithLibraries.
End TorznabFacts.

Module TorznabExamples.
Import MiniRe Html SimpleUrl Examples Torznab TorznabFacts.

(** C9, on the reply to a wrong key.  The document has no [searching]
    element, so it advertises neither the movie searcher nor [search];
    the setup ends in a [TypeError], not in a plugin error.  So it does,
    with a [KeyError], on a searcher element without [available].  The
    sibling case of a [searching] element that lists nothing does raise
    the plugin error. *)
Theorem missing_searching_element_is_type_error :
  doc_advertises error_reply "movie-search" = false
  /\ doc_advertises error_reply "search" = false
  /\ _setup_searcher error_reply "movie" world0 = (Raise TypeError, world0)
  /\ doc_advertises search_without_available "search" = false
  /\ _setup_searcher search_without_available "search" world0
     = (Raise (KeyError "available"), world0)
  /\ _setup_searcher empty_searching "movie" world0
     = (Raise (PluginError "No searcher available on http://indexer"),
        world0).
Proof. repeat split; vm_compute; reflexivity. Qed.

(** The tv searcher is listed but not available: [search] is selected,
    with a warning. *)
Lemma setup_searcher_falls_back_to_search :
  _setup_searcher caps "tvsearch" world0
  = (Ok tt,
     {| self := {| base_url := "http://indexer";
                   supported_params := ["q"];
                   params := [("apikey", "k"); ("extended", "1");
                              ("t", "search")] |};
        cfg := Some indexer; requested := [];
        warned :=
          ["'tv-search' searcher not availble, falling back to 'search'."]
     |}).
Proof.
  assert (Hwf : forall name,
             checkable
               ({[ "search" := {[ "available" := "yes";
                                  "supportedparams" := "q" ]};
                   "tv-search" := {[ "available" := "no";
                                     "supportedparams" := "q,season,ep" ]}
                ]} : gmap string (gmap string string)) name).
  { intros name attrs Hattrs.
    apply lookup_insert_Some in Hattrs as [[_ <-]|[_ Hattrs]].
    { split; [now exists "yes"|intros _; now exists "q"]. }
    apply lookup_singleton_Some in Hattrs as [_ <-].
    split; [now exists "no"|intros _; now exists "q,season,ep"]. }
  destruct (setup_searcher_selects_or_raises (SoupImpl := Html.soup)
              caps "tvsearch" "tv-search" _ world0
              eq_refl eq_refl (Hwf "tv-search") (Hwf "search"))
    as (_ & Hfallback & _).
  destruct (Hfallback eq_refl ltac:(discriminate) eq_refl)
    as (sp & Hsp & Hrun).
  injection Hsp as <-. exact Hrun.
Defined.

(** A search on the indexer that answers with [caps]. *)
Lemma search_returns_no_results_witness :
  fst (search (answering caps) ∅ world0) = Ok []
  /\ requested (snd (search (answering caps) ∅ world0))
     = ["http://indexer/api?apikey=k&extended=1&t=caps"].
Proof.
  destruct (search (answering caps) ∅ world0) as [r w'] eqn:Hrun.
  assert (Hok : exists results, r = Ok results).
  { vm_compute in Hrun. injection Hrun as <- _. eauto. }
  destruct Hok as [results ->].
  destruct (search_returns_no_results (SoupImpl := Html.soup)
              (answering caps) ∅ world0 w' results Hrun)
    as (-> & c & Hc & Hreq).
  split; [reflexivity|].
  cbn [snd]. rewrite Hreq. injection Hc as <-. reflexivity.
Defined.

End TorznabExamples.

(** ** Further properties of the code *)

(** ** soup_parse: the flag resolver and the regex compiler *)

Module FlagFacts.
Import SoupParse.

(** [split] yields at least one piece. *)
Lemma split_nonempty (sep : ascii) (s : string) : Py.split sep s <> [].
Proof.
  destruct s as [|c s]; cbn; [discriminate|].
  destruct (Ascii.eqb c sep); [discriminate|].
  destruct (Py.split sep s); discriminate.
Qed.

(** Splitting around a separator. *)
Lemma split_app (sep : ascii) (s1 s2 : string) :
  Py.split sep (s1 +:+ String sep s2) = Py.split sep s1 ++ Py.split sep s2.
Proof.
  induction s1 as [|c s1 IH]; simpl.
  - now rewrite Ascii.eqb_refl.
  - destruct (Ascii.eqb c sep); [now rewrite IH|].
    rewrite IH. pose proof (split_nonempty sep s1) as Hne.
    destruct (Py.split sep s1); [contradiction|reflexivity].
Qed.

(** The value of one flag name, as the loop of [flagstr_to_flags] reads
    it. *)
Local Abbreviation flag_value flag := (assoc (Py.strip flag) FLAG_VALUES).

Local Abbreviation step :=
  (fun (COMBIND_FLAGS : result Z) (flag : string) =>
     let? acc := COMBIND_FLAGS in
     match flag_value flag with
     | Some v => Ok (Z.lor acc v)
     | None => Raise (KeyError (Py.strip flag))
     end).

Lemma fold_flags_raise (pieces : list string) (e : exn) :
  fold_left step pieces (Raise e) = Raise e.
Proof. induction pieces as [|p ps IH]; [reflexivity|exact IH]. Qed.

Lemma fold_flags_acc (pieces : list string) (a : Z) :
  fold_left step pieces (Ok a)
  = let? v := fold_left step pieces (Ok 0) in Ok (Z.lor a v).
Proof.
  revert a. induction pieces as [|p ps IH]; intros a; cbn [fold_left R.bind].
  - now rewrite Z.lor_0_r.
  - destruct (flag_value p) as [v|].
    + rewrite (IH (Z.lor a v)), (IH (Z.lor 0 v)). cbn [Z.lor].
      destruct (fold_left step ps (Ok 0)) as [w|]; cbn [R.bind]; [|reflexivity].
      now rewrite Z.lor_assoc.
    + now rewrite fold_flags_raise.
Qed.

Lemma fold_flags_app (ps qs : list string) (v w : Z) :
  fold_left step ps (Ok 0) = Ok v ->
  fold_left step qs (Ok 0) = Ok w ->
  fold_left step (ps ++ qs) (Ok 0) = Ok (Z.lor v w).
Proof.
  intros Hp Hq. rewrite fold_left_app, Hp, fold_flags_acc, Hq. reflexivity.
Qed.

(** Every value of [FLAG_VALUES] lies within the bits 1 to 7. *)
Lemma flag_value_bits (name : string) (v : Z) :
  assoc name FLAG_VALUES = Some v -> Z.land v 254 = v.
Proof.
  unfold FLAG_VALUES. cbn [assoc].
  repeat (destruct (String.eqb name _); [now intros [= <-]|]).
  discriminate.
Qed.

(** X1.  When every comma-separated piece, stripped of blanks, is a flag
    name, [flagstr_to_flags] returns the bitwise or of the values of the
    pieces. *)
Theorem flagstr_to_flags_known (flag_str : string) (values : list Z) :
  Forall2 (fun piece v => flag_value piece = Some v)
          (Py.split "," flag_str) values ->
  flagstr_to_flags flag_str = Ok (fold_right Z.lor 0 values).
Proof.
  unfold flagstr_to_flags. generalize (Py.split "," flag_str) as pieces.
  intros pieces Hall. induction Hall as [|p v ps vs Hp _ IH].
  - reflexivity.
  - cbn [fold_left fold_right R.bind]. rewrite Hp, fold_flags_acc, IH.
    reflexivity.
Qed.

(** X2.  The first piece that is no flag name makes [flagstr_to_flags]
    raise a [KeyError] for that piece, stripped. *)
Theorem flagstr_to_flags_unknown (flag_str piece : string)
    (before after : list string) :
  Py.split "," flag_str = before ++ piece :: after ->
  Forall (fun p => is_Some (flag_value p)) before ->
  flag_value piece = None ->
  flagstr_to_flags flag_str = Raise (KeyError (Py.strip piece)).
Proof.
  unfold flagstr_to_flags. intros -> Hbefore Hpiece.
  generalize 0 as acc. induction Hbefore as [|p ps [v Hp] _ IH]; intros acc.
  - cbn [app fold_left R.bind]. rewrite Hpiece. apply fold_flags_raise.
  - cbn [app fold_left R.bind]. rewrite Hp. apply IH.
Qed.

(** X3.  Flag strings compose: the flags of two lists joined by a comma
    are the bitwise or of the flags of each, so that neither the order of
    the names nor a repeated name changes the result. *)
Theorem flagstr_to_flags_join (s1 s2 : string) (v1 v2 : Z) :
  flagstr_to_flags s1 = Ok v1 ->
  flagstr_to_flags s2 = Ok v2 ->
  flagstr_to_flags (s1 +:+ "," +:+ s2) = Ok (Z.lor v1 v2)
  /\ flagstr_to_flags (s2 +:+ "," +:+ s1) = Ok (Z.lor v1 v2)
  /\ flagstr_to_flags (s1 +:+ "," +:+ s1) = Ok v1.
Proof.
  unfold flagstr_to_flags. intros H1 H2.
  change ("," +:+ s2) with (String "," s2).
  change ("," +:+ s1) with (String "," s1).
  rewrite !split_app.
  rewrite (fold_flags_app _ _ _ _ H1 H2), (fold_flags_app _ _ _ _ H2 H1),
    (fold_flags_app _ _ _ _ H1 H1).
  now rewrite (Z.lor_comm v2 v1), Z.lor_diag.
Qed.

(** X4.  A result of [flagstr_to_flags] only has bits of the seven flags
    of the table: it lies between 0 and 254 and is even. *)
Theorem flagstr_to_flags_bits (flag_str : string) (v : Z) :
  flagstr_to_flags flag_str = Ok v ->
  Z.land v 254 = v /\ 0 <= v <= 254.
Proof.
  unfold flagstr_to_flags.
  assert (Hinv : forall pieces acc,
             Z.land acc 254 = acc ->
             fold_left step pieces (Ok acc) = Ok v -> Z.land v 254 = v).
  { induction pieces as [|p ps IH]; intros acc Hacc; cbn [fold_left R.bind].
    - now intros [= <-].
    - destruct (flag_value p) as [w|] eqn:Hw.
      + apply IH. rewrite Z.land_lor_distr_l, Hacc.
        now rewrite (flag_value_bits _ _ Hw).
      + now rewrite fold_flags_raise. }
  intros Hv. pose proof (Hinv _ 0 eq_refl Hv) as Hbits.
  split; [exact Hbits|].
  assert (H255 : v mod 2 ^ 8 = v).
  { rewrite <- (Z.land_ones v 8) by lia. change (Z.ones 8) with 255.
    rewrite <- Hbits at 1. now rewrite <- Z.land_assoc. }
  assert (H1 : v mod 2 ^ 1 = 0).
  { rewrite <- (Z.land_ones v 1) by lia. change (Z.ones 1) with 1.
    rewrite <- Hbits. now rewrite <- Z.land_assoc, Z.land_0_r. }
  pose proof (Z.mod_pos_bound v (2 ^ 8) ltac:(lia)) as Hlt.
  rewrite H255 in Hlt. change (2 ^ 8) with 256 in Hlt.
  change (2 ^ 1) with 2 in H1.
  assert (v <> 255) by (intros ->; discriminate H1). lia.
Qed.

(** X5.  A flag string that ends in a comma is refused: its last piece is
    empty, and the empty name is in no table. *)
Theorem flagstr_to_flags_trailing_comma (flag_str : string) (v : Z) :
  flagstr_to_flags flag_str = Ok v ->
  flagstr_to_flags (flag_str +:+ ",") = Raise (KeyError "").
Proof.
  unfold flagstr_to_flags. intros Hv.
  rewrite split_app, fold_left_app, Hv. reflexivity.
Qed.

End FlagFacts.

Module CompileFacts.
Import SoupParse.

Lemma mapM_Forall2 {A B} (f : A -> result B) (l : list A) (l' : list B) :
  R.mapM f l = Ok l' <-> Forall2 (fun a b => f a = Ok b) l l'.
Proof.
  revert l'. induction l as [|a l IH]; intros l'; cbn [R.mapM].
  - split; [intros [= <-]; constructor|intros H].
    now apply Forall2_nil_inv_l in H as ->.
  - split.
    + destruct (f a) as [b|] eqn:Hb; [|discriminate]. cbn [R.bind].
      destruct (R.mapM f l) as [bs|]; [|discriminate]. cbn [R.bind].
      intros [= <-]. constructor; [exact Hb|now apply IH].
    + intros H. apply Forall2_cons_inv_l in H as (b & bs & Hb & Hbs & ->).
      apply IH in Hbs. now rewrite Hb, Hbs.
Qed.

Section WithLibraries.
Context `{SoupImpl : Soup}.

(** X6.  [compile_regexp_dict_list] returns exactly when every item
    compiles, and then the list holds, in the order of the items, the
    pattern of each [regexp] compiled with the flags of its own [flags]
    string, or with no flag when the item has none. *)
Theorem compile_regexp_dict_list_each (re_list : list regexp_dict)
    (compiled : list Pattern) :
  compile_regexp_dict_list re_list = Ok compiled
  <-> Forall2 (fun dic p =>
                 exists fl : Z,
                   match dic.(flags) with
                   | Some f => flagstr_to_flags f
                   | None => Ok 0
                   end = Ok fl
                   /\ re_compile dic.(regexp) fl = Ok p)
              re_list compiled.
Proof.
  revert compiled.
  induction re_list as [|dic rest IH]; intros compiled;
    cbn [compile_regexp_dict_list].
  - split; [intros [= <-]; constructor|intros Hall].
    now apply Forall2_nil_inv_l in Hall as ->.
  - split.
    + destruct (match flags dic with Some _ => _ | None => _ end)
        as [fl|] eqn:Hfl; [|discriminate]. cbn [R.bind].
      destruct (re_compile (regexp dic) fl) as [p|] eqn:Hp; [|discriminate].
      cbn [R.bind].
      destruct (compile_regexp_dict_list rest) as [ps|]; [|discriminate].
      cbn [R.bind]. intros [= <-].
      constructor; [now exists fl|now apply IH].
    + intros Hall.
      apply Forall2_cons_inv_l in Hall
        as (p & ps & (fl & Hfl & Hp) & Hps & ->).
      apply IH in Hps. now rewrite Hfl; cbn [R.bind]; rewrite Hp, Hps.
Qed.

(** X7.  [_tag_limiter] yields one search term per scope limit, in order,
    and the bounds it writes as Python text evaluate as declared: for a
    bare string to 0 and to the number of matches; for an object to its
    start minus one and to its end, where the end 31415 stands for the
    number of matches. *)
Theorem tag_limiter_bounds (scope_limits : list scope_limit)
    (tag_search_terms : list search_term) :
  _tag_limiter scope_limits = Ok tag_search_terms ->
  Forall2 (fun limit term =>
             forall n : Z,
               match limit with
               | LimitStr _ =>
                   Py.eval term.(term_start) n = Ok 0
                   /\ Py.eval term.(term_end) n = Ok n
               | LimitDict d =>
                   Py.eval term.(term_start) n = Ok (d.(start) - 1)
                   /\ Py.eval term.(term_end) n
                      = Ok (if d.(end_) =? 31415 then n else d.(end_))
               end)
          scope_limits tag_search_terms.
Proof.
  unfold _tag_limiter. intros Hall. apply mapM_Forall2 in Hall.
  eapply Forall2_impl; [exact Hall|]. intros [name|d] term Hitem n.
  - unfold _tag_limiter_item in Hitem.
    destruct (re_compile _ 0); [|discriminate Hitem]. cbn [R.bind] in Hitem.
    injection Hitem as <-. split; reflexivity.
  - now apply CompilerFacts.tag_limiter_item_bounds.
Qed.

(** X8.  The attribute constraint of a compiled object: none when neither
    [attribute_name] nor [attribute_value] is given; otherwise a single
    entry under [attribute_name] whose pattern is the anchored
    [attribute_value], or the anchored [.*] when the value is absent or
    empty. *)
Theorem tag_limiter_item_attributes (d : limit_dict) (term : search_term) :
  _tag_limiter_item (LimitDict d) = Ok term ->
  if negb (Py.truthy_opt d.(attribute_name))
     && negb (Py.truthy_opt d.(attribute_value))
  then term.(term_att_dict) = []
  else exists p : Pattern,
      re_compile ("^" +:+ (if Py.truthy_opt d.(attribute_value)
                           then Py.format_opt d.(attribute_value)
                           else ".*") +:+ "$") 0 = Ok p
      /\ term.(term_att_dict) = [(d.(attribute_name), p)].
Proof.
  unfold _tag_limiter_item.
  destruct (negb (Py.truthy_opt (attribute_name d))
            && negb (Py.truthy_opt (attribute_value d))).
  - cbn [R.bind]. destruct (re_compile _ 0); [|discriminate].
    cbn [R.bind]. now intros [= <-].
  - assert (Hval : match attribute_value d with
                   | Some (String _ _ as v) => v
                   | _ => ".*"
                   end
                   = if Py.truthy_opt (attribute_value d)
                     then Py.format_opt (attribute_value d) else ".*").
    { now destruct (attribute_value d) as [[|c v]|]. }
    rewrite Hval. clear Hval.
    set (att_val := if Py.truthy_opt (attribute_value d)
                    then Py.format_opt (attribute_value d) else ".*").
    destruct (re_compile ("^" +:+ att_val +:+ "$") 0) as [p|] eqn:Hp;
      [|discriminate].
    cbn [R.bind].
    destruct (re_compile ("^" +:+ Py.format_opt (element_name d) +:+ "$") 0);
      [|discriminate].
    cbn [R.bind]. intros [= <-]. now exists p.
Qed.

End WithLibraries.
End CompileFacts.

(** ** soup_parse: invariants of the tag resolver *)

Module ResolverInvariants.
Import SoupParse.

Section WithLibraries.
Context `{SoupImpl : Soup}.

Lemma bind_inv {A B} (m : W.t A) (k : A -> W.t B) (b : B)
    (log : list warning) :
  W.bind m k = (Ok b, log) ->
  exists a l1 l2, m = (Ok a, l1) /\ k a = (Ok b, l2) /\ log = l1 ++ l2.
Proof.
  unfold W.bind. destruct m as [[a|e] l1]; [|discriminate].
  destruct (k a) as [r l2] eqn:Hk. intros [= -> <-]. eauto 6.
Qed.

Lemma bind_ext {A B} (m : W.t A) (k k' : A -> W.t B) :
  (forall a, k a = k' a) -> W.bind m k = W.bind m k'.
Proof.
  intros Hk. unfold W.bind. destruct m as [[a|e] l]; [|reflexivity].
  now rewrite Hk.
Qed.

(** A loop whose body never raises does not raise. *)
Lemma foldM_ok {A S} (body : S -> A -> W.t S) (l : list A) :
  (forall acc a, exists acc' log, body acc a = (Ok acc', log)) ->
  forall acc, exists r log, W.foldM body acc l = (Ok r, log).
Proof.
  intros Hbody. induction l as [|a l IH]; intros acc; cbn [W.foldM].
  - unfold W.ret. eauto.
  - destruct (Hbody acc a) as (acc' & l1 & ->).
    destruct (IH acc') as (r & l2 & Hr).
    rewrite ResolverFacts.bind_ok, Hr. cbn. eauto.
Qed.

(** The resolver, one depth unfolded. *)
Lemma resolver_unfold (element_tag_list : list (list Tag)) (scope_num : nat)
    (terms : list search_term) :
  _get_master_tag_list element_tag_list scope_num terms
  = if decide (scope_num + 1 < length terms)%nat then
      let* parents := W.lift (scope_at element_tag_list scope_num) in
      let* temp_list := descend scope_num terms (enumerate parents) in
      _get_master_tag_list (element_tag_list ++ [temp_list]) (scope_num + 1)
                           terms
    else
      let* parents := W.lift (scope_at element_tag_list scope_num) in
      flatten scope_num terms parents.
Proof.
  simp _get_master_tag_list.
  destruct (lt_dec (scope_num + 1) (length terms)) as [Hl|Hl];
    destruct (decide (scope_num + 1 < length terms)%nat) as [Hd|Hd];
    try contradiction; cbn; reflexivity.
Qed.

(** With bounds that evaluate and a start that is not negative, the slice
    of one parent's matches is produced. *)
Lemma scope_slice_ok (scope_num x : nat) (term : search_term)
    (new_tag_list : list Tag) (s e : Z) :
  Py.eval term.(term_start) (Py.len new_tag_list) = Ok s ->
  Py.eval term.(term_end) (Py.len new_tag_list) = Ok e ->
  0 <= s ->
  exists picked log,
    scope_slice scope_num x term new_tag_list = (Ok picked, log).
Proof.
  intros Hs He Hs0.
  pose proof (ResolverFacts.scope_slice_value scope_num x term new_tag_list
                s e Hs He) as Hval. cbv zeta in Hval.
  rewrite PyFacts.mapM_index_range in Hval.
  - destruct (scope_slice scope_num x term new_tag_list) as [r log].
    cbn in Hval. subst r. eauto.
  - destruct ((s >=? e) || (s >=? Py.len new_tag_list)); lia.
  - destruct (Z.gtb_spec e (Py.len new_tag_list)); lia.
Qed.

(** The bounds of a term evaluate, to a start that is not negative, for
    every list of matches. *)
Local Abbreviation evaluable term :=
  (forall new_tag_list : list Tag,
      exists s e : Z,
        Py.eval term.(term_start) (Py.len new_tag_list) = Ok s
        /\ Py.eval term.(term_end) (Py.len new_tag_list) = Ok e
        /\ 0 <= s).

Lemma resolver_ok (terms : list search_term) :
  Forall (fun term => evaluable term) terms ->
  forall (k : nat) (element_tag_list : list (list Tag)) (scope_num : nat),
    k = (length terms - scope_num)%nat ->
    (scope_num < length terms)%nat ->
    length element_tag_list = S scope_num ->
    exists nodes log,
      _get_master_tag_list element_tag_list scope_num terms = (Ok nodes, log).
Proof.
  intros Hterms. induction k as [|k IH]; intros etl n Hk Hn Hlen; [lia|].
  destruct (lookup_lt_is_Some_2 etl n ltac:(lia)) as [parents Hparents].
  destruct (lookup_lt_is_Some_2 terms n Hn) as [term Hterm].
  rewrite resolver_unfold. unfold scope_at. rewrite Hparents.
  rewrite !ResolverFacts.bind_lift_ok.
  destruct (decide (n + 1 < length terms)%nat) as [Hlt|Hge].
  - rewrite (ResolverFacts.descend_unfold _ _ term _ Hterm).
    destruct (foldM_ok (descend_body n term) (enumerate parents)) with (acc := @nil Tag)
      as (temp & l1 & Htemp).
    { intros acc [x p]. unfold descend_body. cbn [fst snd].
      destruct (Forall_lookup_1 _ _ _ _ Hterms Hterm
                  (find_all p (term_el_name term) (term_att_dict term)))
        as (s & e & Hs & He & Hs0).
      destruct (scope_slice_ok n x term _ s e Hs He Hs0) as (picked & lg & ->).
      rewrite ResolverFacts.bind_ok. cbn. eauto. }
    rewrite Htemp, ResolverFacts.bind_ok.
    destruct (IH (etl ++ [temp]) (n + 1)%nat) as (nodes & l2 & ->);
      [lia|lia|rewrite length_app; cbn; lia|].
    cbn. eauto.
  - rewrite (ResolverFacts.flatten_unfold _ _ term _ Hterm). eauto.
Qed.

(** X9.  Scope limits never abort the extraction: for a non-empty list of
    scope limits whose objects declare a start of at least 1 (as the
    schema demands) and whose patterns compile, the resolver returns a
    list of nodes, whatever the bounds and the document. *)
Theorem resolver_returns_for_valid_limits (scope_limits : list scope_limit)
    (tag_search_terms : list search_term) (soup : Tag) :
  scope_limits <> [] ->
  Forall (fun limit => match limit with
                       | LimitDict d => 1 <= d.(start)
                       | LimitStr _ => True
                       end) scope_limits ->
  _tag_limiter scope_limits = Ok tag_search_terms ->
  exists nodes log,
    _get_master_tag_list [[soup]] 0 tag_search_terms = (Ok nodes, log).
Proof.
  intros Hne Hstart Hterms. unfold _tag_limiter in Hterms.
  apply CompileFacts.mapM_Forall2 in Hterms.
  pose proof (Forall2_length _ _ _ Hterms) as Hlen.
  apply (resolver_ok tag_search_terms) with (k := length tag_search_terms);
    [|lia|destruct scope_limits; [contradiction|cbn in Hlen; lia]|reflexivity].
  clear Hne Hlen soup.
  induction Hterms as [|limit term limits terms Hitem _ IH];
    [constructor|].
  apply Forall_cons in Hstart as [Hlimit Hstart].
  constructor; [|now apply IH]. intros l.
  destruct limit as [name|d].
  - unfold _tag_limiter_item in Hitem.
    destruct (re_compile _ 0); [|discriminate Hitem]. cbn [R.bind] in Hitem.
    injection Hitem as <-. exists 0, (Py.len l). repeat split. lia.
  - destruct (CompilerFacts.tag_limiter_item_bounds d term (Py.len l) Hitem)
      as [Hs He].
    eexists _, _. repeat split; [exact Hs|exact He|lia].
Qed.

Lemma resolver_empty_scope_aux (terms : list search_term) :
  forall (k : nat) (element_tag_list : list (list Tag)) (scope_num : nat),
    k = (length terms - scope_num)%nat ->
    length element_tag_list = S scope_num ->
    element_tag_list !! scope_num = Some [] ->
    _get_master_tag_list element_tag_list scope_num terms = (Ok [], []).
Proof.
  induction k as [|k IH]; intros etl n Hk Hlen Hempty;
    rewrite resolver_unfold; unfold scope_at; rewrite Hempty;
    rewrite !ResolverFacts.bind_lift_ok;
    (destruct (decide (n + 1 < length terms)%nat) as [Hlt|Hge];
     [|reflexivity]); [lia|].
  cbn [enumerate length seq combine descend W.foldM].
  rewrite ResolverFacts.bind_ret. apply IH; [lia|rewrite length_app; cbn; lia|].
  rewrite lookup_app_r by lia.
  now replace (n + 1 - length etl)%nat with 0%nat by lia.
Qed.

(** X10.  An empty scope stays empty: when no node is carried into a
    depth, the resolver returns the empty list, without a warning and
    without evaluating any bound of the deeper limits. *)
Theorem resolver_empty_scope (element_tag_list : list (list Tag))
    (scope_num : nat) (terms : list search_term) :
  length element_tag_list = S scope_num ->
  element_tag_list !! scope_num = Some [] ->
  _get_master_tag_list element_tag_list scope_num terms = (Ok [], []).
Proof.
  intros Hlen Hempty.
  now apply (resolver_empty_scope_aux terms (length terms - scope_num)).
Qed.

Lemma resolver_last_term_aux (terms : list search_term) (term : search_term) :
  last terms = Some term ->
  forall (k : nat) (element_tag_list : list (list Tag)) (scope_num : nat)
         (nodes : list Tag) (log : list warning),
    k = (length terms - scope_num)%nat ->
    (scope_num < length terms)%nat ->
    _get_master_tag_list element_tag_list scope_num terms = (Ok nodes, log) ->
    forall node, node ∈ nodes ->
      exists parent,
        node ∈ find_all parent term.(term_el_name) term.(term_att_dict).
Proof.
  intros Hlast. induction k as [|k IH]; intros etl n nodes log Hk Hn; [lia|].
  rewrite resolver_unfold.
  destruct (decide (n + 1 < length terms)%nat) as [Hlt|Hge].
  - intros Hrun.
    apply bind_inv in Hrun as (parents & l1 & l2 & _ & Hrun & _).
    apply bind_inv in Hrun as (temp & l3 & l4 & _ & Hrun & _).
    eapply (IH _ (n + 1)%nat); [lia|lia|exact Hrun].
  - intros Hrun.
    apply bind_inv in Hrun as (parents & l1 & l2 & _ & Hrun & _).
    assert (Hterm : terms !! n = Some term).
    { rewrite last_lookup in Hlast.
      now replace n with (Nat.pred (length terms)) by lia. }
    rewrite (ResolverFacts.flatten_unfold _ _ term _ Hterm) in Hrun.
    injection Hrun as <- _. intros node Hnode.
    apply list_elem_of_In, in_concat in Hnode as (matches & Hmatches & Hnode).
    apply in_map_iff in Hmatches as (parent & <- & _).
    exists parent. now apply list_elem_of_In.
Qed.

(** X11.  Every node the resolver returns is a match of the last search
    term under some node: the sections of a document are matches of the
    innermost scope limit. *)
Theorem resolver_yields_matches_of_last_term
    (element_tag_list : list (list Tag)) (scope_num : nat)
    (terms : list search_term) (term : search_term) (nodes : list Tag)
    (log : list warning) :
  last terms = Some term ->
  (scope_num < length terms)%nat ->
  _get_master_tag_list element_tag_list scope_num terms = (Ok nodes, log) ->
  forall node, node ∈ nodes ->
    exists parent,
      node ∈ find_all parent term.(term_el_name) term.(term_att_dict).
Proof.
  intros Hlast Hn Hrun.
  now apply (resolver_last_term_aux terms term Hlast
               (length terms - scope_num) element_tag_list scope_num nodes log).
Qed.

Lemma resolver_last_bounds_aux (terms : list search_term)
    (t t' : search_term) :
  t.(term_el_name) = t'.(term_el_name) ->
  t.(term_att_dict) = t'.(term_att_dict) ->
  forall (k : nat) (element_tag_list : list (list Tag)) (scope_num : nat),
    k = (length terms + 1 - scope_num)%nat ->
    _get_master_tag_list element_tag_list scope_num (terms ++ [t])
    = _get_master_tag_list element_tag_list scope_num (terms ++ [t']).
Proof.
  intros Hel Hatt.
  assert (Hfinal : forall n parents,
             ~ (n + 1 < length terms + 1)%nat ->
             flatten n (terms ++ [t]) parents
             = flatten n (terms ++ [t']) parents).
  { intros n parents Hge. unfold flatten. apply ResolverFacts.foldM_ext.
    intros acc p. unfold term_at.
    rewrite !lookup_app_r by lia.
    destruct (n - length terms)%nat as [|m]; cbn;
      rewrite ?Hel, ?Hatt; reflexivity. }
  induction k as [|k IH]; intros etl n Hk; rewrite !(resolver_unfold etl n);
    rewrite !length_app; cbn [length];
    (destruct (decide (n + 1 < length terms + 1)%nat) as [Hlt|Hge];
     [|apply bind_ext; intros parents; now apply Hfinal]); [lia|].
  apply bind_ext. intros parents.
  assert (Hdescend : forall xs,
             descend n (terms ++ [t]) xs = descend n (terms ++ [t']) xs).
  { intros xs. unfold descend. apply ResolverFacts.foldM_ext.
    intros acc [x p]. unfold term_at. now rewrite !lookup_app_l by lia. }
  rewrite Hdescend. apply bind_ext. intros temp. apply IH. lia.
Qed.

(** X12.  The start and end of the last scope limit are never applied:
    two lists of scope limits that differ only in the bounds of their last
    object compile and resolve to the same outcome, warnings included. *)
Theorem last_limit_bounds_ignored (scope_limits : list scope_limit)
    (d : limit_dict) (start' end' : Z)
    (element_tag_list : list (list Tag)) (scope_num : nat) :
  let d' := {| element_name := d.(element_name);
               attribute_name := d.(attribute_name);
               attribute_value := d.(attribute_value);
               start := start'; end_ := end' |} in
  (let* terms := W.lift (_tag_limiter (scope_limits ++ [LimitDict d])) in
   _get_master_tag_list element_tag_list scope_num terms)
  = (let* terms := W.lift (_tag_limiter (scope_limits ++ [LimitDict d'])) in
     _get_master_tag_list element_tag_list scope_num terms).
Proof.
  intros d'.
  assert (Happ : forall limit,
             _tag_limiter (scope_limits ++ [limit])
             = let? ts := _tag_limiter scope_limits in
               let? t := _tag_limiter_item limit in Ok (ts ++ [t])).
  { intros limit. unfold _tag_limiter.
    induction scope_limits as [|l ls IH]; cbn [app R.mapM].
    - destruct (_tag_limiter_item limit); reflexivity.
    - destruct (_tag_limiter_item l); [|reflexivity]. cbn [R.bind].
      rewrite IH. destruct (R.mapM _tag_limiter_item ls); [|reflexivity].
      cbn [R.bind]. destruct (_tag_limiter_item limit); reflexivity. }
  rewrite !Happ. destruct (_tag_limiter scope_limits) as [ts|e]; [|reflexivity].
  cbn [R.bind]. unfold _tag_limiter_item, d'.
  cbn [element_name attribute_name attribute_value start end_].
  destruct (if _ && _ then _ else _) as [att_dict|e]; [|reflexivity].
  cbn [R.bind].
  destruct (re_compile ("^" +:+ Py.format_opt (element_name d) +:+ "$") 0)
    as [el|e]; [|reflexivity].
  cbn [R.bind]. rewrite !ResolverFacts.bind_lift_ok.
  apply (resolver_last_bounds_aux ts)
    with (k := (length ts + 1 - scope_num)%nat); reflexivity.
Qed.

End WithLibraries.
End ResolverInvariants.

(** ** soup_parse: invariants of the extractor *)

Module RecordFacts.
Import SoupParse.

Section WithLibraries.
Context `{SoupImpl : Soup} `{UrlImpl : UrlLib}.

(** The loop over the regexps writes no other key than its own. *)
Lemma apply_regexps_other (regexps : list Pattern) (s key k : string)
    (entry : Entry) :
  k <> key -> apply_regexps regexps s key entry !! k = entry !! k.
Proof.
  intros Hk. induction regexps as [|r rs IH]; cbn [apply_regexps];
    [reflexivity|].
  destruct (negb (Py.truthy s)); [reflexivity|].
  destruct (re_search r s); [now rewrite lookup_insert_ne|exact IH].
Qed.

(** A property that every step of a loop keeps holds when the loop
    returns. *)
Lemma foldM_invariant {A S} (P : S -> Prop) (body : S -> A -> W.t S)
    (l : list A) :
  (forall acc a acc' log,
      a ∈ l -> P acc -> body acc a = (Ok acc', log) -> P acc') ->
  forall acc r log, P acc -> W.foldM body acc l = (Ok r, log) -> P r.
Proof.
  induction l as [|a l IH]; intros Hbody acc r log Hacc; cbn [W.foldM].
  - now intros [= <- _].
  - intros Hrun.
    apply ResolverInvariants.bind_inv in Hrun
      as (acc' & l1 & l2 & Hstep & Hrest & _).
    eapply IH; [|eapply Hbody; [left|exact Hacc|exact Hstep]|exact Hrest].
    intros ? ? ? ? Hin. apply Hbody. now right.
Qed.

(** X13.  Resolving one key leaves every other field of the record as it
    was, the host's own [original_title] and [original_url] aside (the
    host's [Entry] sets them when [title] and [url] are assigned). *)
Theorem extract_key_frame (url : string)
    (key_to_regexps : gmap string (list Pattern)) (sec_num : Z)
    (section : Tag) (entry entry' : Entry) (key : string)
    (value : key_config) (log : list warning) :
  extract_key url key_to_regexps sec_num section entry (key, value)
  = (Ok entry', log) ->
  forall k,
    k <> key -> k <> "original_title" -> k <> "original_url" ->
    entry' !! k = entry !! k.
Proof.
  unfold extract_key. intros Hrun k Hk _ _.
  apply ResolverInvariants.bind_inv in Hrun as ([tag|] & l1 & l2 & _ & Hrun & _).
  - apply ResolverInvariants.bind_inv in Hrun as (s & l3 & l4 & _ & Hrun & _).
    apply ResolverInvariants.bind_inv in Hrun as (rs & l5 & l6 & _ & Hrun & _).
    injection Hrun as <- _. now apply apply_regexps_other.
  - now injection Hrun as <- _.
Qed.

(** X14.  A record only holds fields that the configuration names: every
    key present in the record of a section is a key of [config['keys']],
    or one of the host's own [original_title] and [original_url]. *)
Theorem record_fields_are_configured (cfg : config)
    (key_to_regexps : gmap string (list Pattern)) (sec_num : Z)
    (section : Tag) (entry : Entry) (log : list warning) :
  extract_section cfg key_to_regexps sec_num section = (Ok entry, log) ->
  forall k, is_Some (entry !! k) ->
    k ∈ map fst cfg.(keys) \/ k = "original_title" \/ k = "original_url".
Proof.
  intros Hrun k Hk. left. revert Hrun k Hk.
  unfold extract_section.
  apply (foldM_invariant
           (fun e : Entry =>
              forall k, is_Some (e !! k) -> k ∈ map fst cfg.(keys))).
  - intros acc [key value] acc' lg Hin Hacc Hstep k Hk.
    destruct (decide (k = key)) as [->|Hne].
    + apply list_elem_of_In, in_map_iff. exists (key, value).
      split; [reflexivity|now apply list_elem_of_In].
    + apply Hacc.
      unfold extract_key in Hstep.
      apply ResolverInvariants.bind_inv in Hstep
        as ([tag|] & l1 & l2 & _ & Hstep & _).
      * apply ResolverInvariants.bind_inv in Hstep
          as (s & l3 & l4 & _ & Hstep & _).
        apply ResolverInvariants.bind_inv in Hstep
          as (rs & l5 & l6 & _ & Hstep & _).
        injection Hstep as <- _.
        now rewrite apply_regexps_other in Hk.
      * now injection Hstep as <- _.
  - intros k [v Hv]. now rewrite lookup_empty in Hv.
Qed.

(** X15.  After the loop over the keys, [key_to_regexps] has an entry for
    every key of the configuration, so that the lookup
    [key_to_regexps[key]] in the loop over the sections never raises. *)
Theorem scan_keys_covers_keys (self self' : t)
    (m m' : gmap string (list Pattern)) (items : list (string * key_config)) :
  scan_keys self m items = (Ok m', self') ->
  forall key, key ∈ map fst items ->
    exists regexps, regexps_of m' key = Ok regexps.
Proof.
  assert (Hkeep : forall items self self' m m',
             scan_keys self m items = (Ok m', self') ->
             forall key, is_Some (m !! key) -> is_Some (m' !! key)).
  { induction items0 as [|[k v] items0 IH]; intros s s' m0 m0'; cbn.
    - now intros [= <- _].
    - destruct (compile_regexp_dict_list _); [|discriminate].
      intros Hscan key Hkey. eapply IH; [exact Hscan|].
      destruct (decide (key = k)) as [->|Hne];
        [rewrite lookup_insert_eq; eauto|now rewrite lookup_insert_ne]. }
  revert self m. induction items as [|[k v] items IH]; intros self m; cbn.
  - intros _ key Hkey. now apply elem_of_nil in Hkey.
  - destruct (compile_regexp_dict_list _) as [compiled|]; [|discriminate].
    intros Hscan key Hkey. apply elem_of_cons in Hkey as [->|Hkey].
    + destruct (Hkeep _ _ _ _ _ Hscan k) as [rs Hrs];
        [rewrite lookup_insert_eq; eauto|].
      exists rs. unfold regexps_of. now rewrite Hrs.
    + eapply IH; eauto.
Qed.

(** The loop over the sections only adds records that pass [isvalid], at
    most one per section. *)
Lemma extract_sections_valid (self : t) (cfg : config)
    (key_to_regexps : gmap string (list Pattern)) (sections : list Tag) :
  forall (sec_num : Z) (acc out : list Entry) (log : list warning),
    extract_sections self cfg key_to_regexps sec_num sections acc
    = (Ok out, log) ->
    Forall (fun e => isvalid self e = true) acc ->
    Forall (fun e => isvalid self e = true) out
    /\ (length out <= length acc + length sections)%nat.
Proof.
  induction sections as [|section sections IH];
    intros sec_num acc out log; cbn [extract_sections].
  - intros [= <- _] Hacc. split; [exact Hacc|cbn; lia].
  - intros Hrun Hacc.
    apply ResolverInvariants.bind_inv in Hrun
      as (entry & l1 & l2 & _ & Hrun & _).
    apply IH in Hrun as [Hout Hlen].
    + split; [exact Hout|]. cbn [length].
      destruct (isvalid self entry); [rewrite length_app in Hlen; cbn in Hlen|];
        lia.
    + destruct (isvalid self entry) eqn:Hvalid; [|exact Hacc].
      apply Forall_app. split; [exact Hacc|]. now constructor.
Qed.

(** What a call of [on_task_input] that returns went through. *)
Lemma on_task_input_inv (self self' : t) (tsk : task) (cfg : config)
    (entries : list Entry) (log : list warning) :
  on_task_input self tsk cfg = ((Ok entries, log), self') ->
  exists soup sections key_to_regexps l1 l2,
    fetch_soup tsk cfg.(source) = Ok soup
    /\ sectionize cfg soup = (Ok sections, l1)
    /\ scan_keys self ∅ cfg.(keys) = (Ok key_to_regexps, self')
    /\ extract_sections self' cfg key_to_regexps 0 sections []
       = (Ok entries, l2)
    /\ log = l1 ++ l2.
Proof.
  unfold on_task_input.
  destruct (fetch_soup tsk (source cfg)) as [soup|]; [|discriminate].
  destruct (sectionize cfg soup) as [[sections|] l] eqn:Hsec; [|discriminate].
  destruct (scan_keys self ∅ (keys cfg)) as [[k2r|] self1]; [|discriminate].
  intros [= Hrun <-].
  destruct (extract_sections self1 cfg k2r 0 sections []) as [r l2] eqn:Hx.
  injection Hrun as -> <-.
  exists soup, sections, k2r, l, l2. now rewrite Hx, Hsec.
Qed.

(** X16.  Whatever [on_task_input] returns is valid: every record holds
    the mandatory title and url and every key required by the instance,
    which after the call are the keys it required before followed by the
    keys the configuration declares required. *)
Theorem returned_records_are_valid (self self' : t) (tsk : task)
    (cfg : config) (entries : list Entry) (log : list warning) :
  on_task_input self tsk cfg = ((Ok entries, log), self') ->
  self'.(required) = self.(required) ++ declared_required cfg.(keys)
  /\ Forall (fun entry =>
               is_Some (entry !! "title") /\ is_Some (entry !! "url")
               /\ Forall (fun key => is_Some (entry !! key))
                         (self.(required) ++ declared_required cfg.(keys)))
            entries.
Proof.
  intros Hcall.
  apply on_task_input_inv in Hcall
    as (soup & sections & k2r & l1 & l2 & _ & _ & Hscan & Hrun & _).
  pose proof (ExtractorFacts.scan_keys_required _ _ _ _ _ Hscan) as Hreq.
  split; [exact Hreq|].
  apply extract_sections_valid in Hrun as [Hvalid _]; [|constructor].
  eapply Forall_impl; [exact Hvalid|]. intros entry Hentry.
  apply ExtractorFacts.isvalid_spec in Hentry as (Hkeys & Htitle & Hurl).
  rewrite Hreq in Hkeys. tauto.
Qed.

(** X17.  [on_task_input] returns at most one record per section, and so
    at most one when the configuration has no [sections]. *)
Theorem at_most_one_record_per_section (self self' : t) (tsk : task)
    (cfg : config) (entries : list Entry) (log : list warning) :
  on_task_input self tsk cfg = ((Ok entries, log), self') ->
  (exists soup sections l,
      fetch_soup tsk cfg.(source) = Ok soup
      /\ sectionize cfg soup = (Ok sections, l)
      /\ (length entries <= length sections)%nat)
  /\ (cfg.(sections) = None \/ cfg.(sections) = Some [] ->
      (length entries <= 1)%nat).
Proof.
  intros Hcall.
  apply on_task_input_inv in Hcall
    as (soup & secs & k2r & l1 & l2 & Hfetch & Hsec & _ & Hrun & _).
  apply extract_sections_valid in Hrun as [_ Hlen]; [|constructor].
  cbn in Hlen. split; [eauto 7|].
  intros Hnone. unfold sectionize in Hsec.
  destruct Hnone as [Hnone|Hnone]; rewrite Hnone in Hsec;
    injection Hsec as <- _; exact Hlen.
Qed.

(** X18.  A key whose own [section] matches nothing in the current
    section is skipped: the record is left as it was and the loop logs
    that the section was not found. *)
Theorem section_not_found_skips_key (url : string)
    (key_to_regexps : gmap string (list Pattern)) (sec_num : Z)
    (section : Tag) (entry : Entry) (key : string) (value : key_config)
    (scope_limits : list scope_limit) (terms : list search_term)
    (log : list warning) :
  value.(SoupParse.section) = Some scope_limits ->
  scope_limits <> [] ->
  _tag_limiter scope_limits = Ok terms ->
  _get_master_tag_list [[section]] 0 terms = (Ok [], log) ->
  extract_key url key_to_regexps sec_num section entry (key, value)
  = (Ok entry, log ++ [SectionNotFound key sec_num]).
Proof.
  intros Hsection Hne Hterms Hrun. unfold extract_key, working_tag.
  rewrite Hsection. destruct scope_limits as [|l ls]; [contradiction|].
  rewrite Hterms, ResolverFacts.bind_lift_ok, Hrun.
  unfold W.bind, W.warn, W.ret. cbn. now rewrite app_nil_r.
Qed.

(** X19.  The location [{'url': N}], for N of at least 1: when the tag
    has N links or more, the string is the [href] of the N-th, as it
    stands (it is not joined to the source url), and a link without
    [href] raises a [KeyError]; when it has fewer, the string is empty and
    a warning is logged. *)
Theorem locate_url_index (url key : string) (sec_num : Z) (tag : Tag)
    (N : Z) :
  1 <= N ->
  (forall a, find_all_named tag "a" !! Z.to_nat (N - 1) = Some a ->
             locate url key sec_num tag (LocDict "url" N)
             = W.lift (getitem a "href"))
  /\ (Py.len (find_all_named tag "a") < N ->
      locate url key sec_num tag (LocDict "url" N)
      = (Ok "", [match find_all_named tag "a" with
                 | [] => NoUrlsFound key sec_num
                 | _ :: _ => UrlOutOfRange key sec_num
                 end])).
Proof.
  intros HN. unfold locate. change (String.eqb "url" "text") with false.
  cbv iota zeta. split.
  - intros a Ha. pose proof (lookup_lt_Some _ _ _ Ha) as Hlt.
    destruct (find_all_named tag "a") as [|a0 anchors] eqn:Hanchors;
      [cbn in Hlt; lia|].
    assert (Hgt : (Py.len (a0 :: anchors) >? N - 1) = true).
    { apply Z.gtb_lt. unfold Py.len. lia. }
    rewrite Hgt.
    replace (N - 1) with (Z.of_nat (Z.to_nat (N - 1))) at 1 by lia.
    rewrite (PyFacts.index_nonneg _ _ _ Ha).
    now rewrite ResolverFacts.bind_lift_ok.
  - intros Hlen. destruct (find_all_named tag "a") as [|a0 anchors];
      [reflexivity|].
    assert (Hgt : (Py.len (a0 :: anchors) >? N - 1) = false).
    { destruct (Z.gtb_spec (Py.len (a0 :: anchors)) (N - 1)); [lia|reflexivity]. }
    now rewrite Hgt.
Qed.

End WithLibraries.
End RecordFacts.

(** ** torznab: the setup, step by step *)

Module SetupFacts.
Import Torznab.

(** Reading back what [setitem] wrote, and what it left alone. *)
Lemma assoc_setitem_eq (k v : string) (d : list (string * string)) :
  SoupParse.assoc k (setitem k v d) = Some v.
Proof.
  induction d as [|[k' v'] d IH]; cbn.
  - now rewrite String.eqb_refl.
  - destruct (String.eqb k k') eqn:E; cbn; rewrite ?String.eqb_refl, ?E;
      [reflexivity|exact IH].
Qed.

Lemma assoc_setitem_ne (k k0 v : string) (d : list (string * string)) :
  k0 <> k -> SoupParse.assoc k0 (setitem k v d) = SoupParse.assoc k0 d.
Proof.
  intros Hne. induction d as [|[k' v'] d IH]; cbn.
  - now rewrite (proj2 (String.eqb_neq k0 k) Hne).
  - destruct (String.eqb_spec k k') as [<-|Hk]; cbn.
    + now rewrite (proj2 (String.eqb_neq k0 k) Hne).
    + now rewrite IH.
Qed.

(** A searcher that passes [_check_searcher] has supported parameters to
    split. *)
Lemma check_true_supported (searchers : gmap string (gmap string string))
    (searcher : string) :
  _check_searcher searchers searcher = Ok true ->
  exists sp, supported_of searchers searcher = Ok sp /\ sp <> [].
Proof.
  unfold _check_searcher, supported_of, attr.
  destruct (searchers !! searcher) as [attrs|]; [|discriminate].
  destruct (attrs !! "available") as [available|]; [|discriminate].
  cbn [R.bind]. destruct (String.eqb available "yes"); [|discriminate].
  destruct (attrs !! "supportedparams") as [sp|]; [|discriminate].
  cbn [R.bind]. intros _. eexists. split; [reflexivity|].
  apply FlagFacts.split_nonempty.
Qed.

(** [rstrip] removes a run of the character from the end, and all of
    it. *)
Lemma rstrip_char_run (c : ascii) (s : string) :
  exists n, s = Py.rstrip_char c s +:+ run c n.
Proof.
  induction s as [|a s [n IH]]; [now exists 0%nat|].
  cbn [Py.rstrip_char]. destruct (Py.rstrip_char c s) as [|b r] eqn:Hr.
  - change (s = run c n) in IH. destruct (Ascii.eqb_spec a c) as [->|Hne].
    + exists (S n). change (String c s = String c (run c n)). now rewrite <- IH.
    + exists n. change (String a s = String a (run c n)). now rewrite <- IH.
  - exists n. change (String a s = String a (String b r +:+ run c n)).
    now rewrite <- IH.
Qed.

Lemma rstrip_char_end (c : ascii) (s s' : string) :
  Py.rstrip_char c s <> s' +:+ String c EmptyString.
Proof.
  revert s'. induction s as [|a s IH]; intros s'; cbn [Py.rstrip_char].
  - destruct s'; discriminate.
  - destruct (Py.rstrip_char c s) as [|b r] eqn:Hr.
    + destruct (Ascii.eqb_spec a c) as [->|Hne]; [destruct s'; discriminate|].
      destruct s' as [|a' s']; [intros [= ->]; contradiction|].
      destruct s'; discriminate.
    + destruct s' as [|a' s']; [discriminate|].
      change (String a (String b r)
              <> String a' (s' +:+ String c EmptyString)).
      intros [= _ Heq]. exact (IH s' Heq).
Qed.

(** X20.  [_check_searcher] answers yes exactly for an advertised
    searcher, answers no for one that is not listed, and raises exactly
    when the element of the searcher lacks the attribute it reads:
    [available], or [supportedparams] once [available] is [yes]. *)
Theorem check_searcher_outcomes (searchers : gmap string (gmap string string))
    (searcher : string) :
  (_check_searcher searchers searcher = Ok true
   <-> advertised searchers searcher = true)
  /\ (searchers !! searcher = None ->
      _check_searcher searchers searcher = Ok false)
  /\ (forall e,
         _check_searcher searchers searcher = Raise e
         <-> exists attrs,
             searchers !! searcher = Some attrs
             /\ ((attrs !! "available" = None /\ e = KeyError "available")
                 \/ (attrs !! "available" = Some "yes"
                     /\ attrs !! "supportedparams" = None
                     /\ e = KeyError "supportedparams"))).
Proof.
  unfold _check_searcher, advertised, attr.
  destruct (searchers !! searcher) as [attrs|].
  2:{ split; [split; discriminate|]. split; [reflexivity|].
      intros e. split; [discriminate|]. now intros (attrs & [=] & _). }
  split; [|split; [discriminate|]].
  - destruct (attrs !! "available") as [available|]; cbn [R.bind].
    + destruct (String.eqb_spec available "yes") as [->|Hne].
      * rewrite bool_decide_eq_true_2 by reflexivity.
        destruct (attrs !! "supportedparams") as [sp|]; cbn;
          [split; congruence|split; discriminate].
      * rewrite bool_decide_eq_false_2 by congruence.
        split; discriminate.
    + rewrite bool_decide_eq_false_2 by discriminate. split; discriminate.
  - intros e.
    destruct (attrs !! "available") as [available|] eqn:Ha; cbn [R.bind];
      [destruct (String.eqb_spec available "yes") as [->|Hne];
       [destruct (attrs !! "supportedparams") as [sp|] eqn:Hs; cbn [R.bind]|]|];
      (split;
       [first [discriminate|intros [= <-]; eauto 10]
       |intros (attrs' & Hl & Hc); injection Hl as <-;
        destruct Hc as [[? ?]|(? & ? & ?)]; congruence]).
Qed.

Section WithLibraries.
Context `{SoupImpl : Soup} `{UrlImpl : UrlLib}.

(** The two ways [_setup_searcher] ends: with an exception and the world
    as it was, or with a searcher selected. *)
Lemma setup_searcher_outcome (xml_root : Tag) (searcher : string) (w : world) :
  (exists e, _setup_searcher xml_root searcher w = (Raise e, w))
  \/ (exists t sp wl,
         (t = searcher \/ t = "search") /\ sp <> []
         /\ _setup_searcher xml_root searcher w
            = (Ok tt,
               {| self := {| base_url := w.(self).(base_url);
                             supported_params := sp;
                             params := setitem "t" t w.(self).(params) |};
                  cfg := w.(cfg); requested := w.(requested);
                  warned := wl |})).
Proof.
  unfold _setup_searcher, bind, lift, get_self, set_self, warn, raise, ret.
  destruct (searchers_of xml_root) as [searchers|]; [|eauto].
  destruct (bool_decide (searchers = ∅)); [eauto|].
  destruct (alias_of searcher) as [alias|]; [|eauto].
  destruct (_check_searcher searchers alias) as [[|]|] eqn:Hcheck; [| |eauto].
  - destruct (check_true_supported _ _ Hcheck) as (sp & -> & Hsp).
    right. exists searcher, sp, (warned w). eauto.
  - destruct (negb (String.eqb searcher "search")); cbv beta iota; [|eauto].
    destruct (_check_searcher searchers "search") as [[|]|] eqn:Hchecks;
      cbv beta iota; [|eauto|eauto].
    cbn [self base_url params cfg requested warned].
    destruct (check_true_supported _ _ Hchecks) as (sp & -> & Hsp).
    right. exists "search", sp. eauto 6.
Qed.

(** X21.  When [_setup_searcher] raises, nothing has changed: the
    instance, the configuration and the log are as before the call. *)
Theorem setup_searcher_failure_changes_nothing (xml_root : Tag)
    (searcher : string) (w w' : world) (e : exn) :
  _setup_searcher xml_root searcher w = (Raise e, w') -> w' = w.
Proof.
  destruct (setup_searcher_outcome xml_root searcher w)
    as [(e' & ->)|(t & sp & wl & _ & _ & ->)]; [|discriminate].
  now intros [= _ <-].
Qed.

(** X22.  When [_setup_searcher] returns, the parameter [t] of the
    instance is the requested searcher or [search], every other parameter
    is as before, the list of supported parameters is not empty, and
    neither the base url, the configuration nor the requests sent have
    changed. *)
Theorem setup_searcher_success (xml_root : Tag) (searcher : string)
    (w w' : world) :
  _setup_searcher xml_root searcher w = (Ok tt, w') ->
  (SoupParse.assoc "t" w'.(self).(params) = Some searcher
   \/ SoupParse.assoc "t" w'.(self).(params) = Some "search")
  /\ (forall k, k <> "t" ->
        SoupParse.assoc k w'.(self).(params)
        = SoupParse.assoc k w.(self).(params))
  /\ w'.(self).(supported_params) <> []
  /\ w'.(self).(base_url) = w.(self).(base_url)
  /\ w'.(cfg) = w.(cfg)
  /\ w'.(requested) = w.(requested).
Proof.
  destruct (setup_searcher_outcome xml_root searcher w)
    as [(e' & ->)|(t & sp & wl & Ht & Hsp & ->)]; [discriminate|].
  intros [= <-]. cbn [self params supported_params base_url cfg requested].
  repeat split; try assumption.
  - rewrite assoc_setitem_eq. destruct Ht as [->| ->]; eauto.
  - intros k Hk. now apply assoc_setitem_ne.
Qed.

(** [_setup_caps] changes neither the base url nor the configuration,
    however it ends. *)
Lemma setup_caps_preserves (tsk : task) (searcher : string)
    (categories : list Z) (w : world) :
  (snd (_setup_caps tsk searcher categories w)).(self).(base_url)
  = w.(self).(base_url)
  /\ (snd (_setup_caps tsk searcher categories w)).(cfg) = w.(cfg).
Proof.
  unfold _setup_caps. rewrite TorznabFacts.internet_state.
  unfold _setup_categories, _build_url, request, bind, get_self, ret.
  cbv beta iota.
  destruct (requests_get tsk _) as [root|]; [|now cbn].
  match goal with
  | |- context [_setup_searcher ?r ?s ?w0] =>
      destruct (setup_searcher_outcome r s w0)
        as [(e & ->)|(t & sp & wl & _ & _ & ->)]
  end; now cbn.
Qed.

(** X23.  [_setup] normalises what it is given, however the capability
    request ends: the base url of the instance is the configured website
    without its trailing slashes, and so never ends in a slash, and the
    searcher [tv] is rewritten to [tvsearch] in the configuration
    itself. *)
Theorem setup_normalises (tsk : task) (w : world) (c : config) :
  w.(cfg) = Some c ->
  let w' := snd (_setup tsk w) in
  w'.(self).(base_url) = Py.rstrip_char "/" c.(website)
  /\ (forall s, w'.(self).(base_url) <> s +:+ "/")
  /\ (exists n, c.(website) = w'.(self).(base_url) +:+ run "/" n)
  /\ w'.(cfg) = Some (normalised c).
Proof.
  intros Hc w'.
  assert (Hw' : w'.(self).(base_url) = Py.rstrip_char "/" c.(website)
                /\ w'.(cfg) = Some (normalised c)).
  { subst w'. unfold _setup, bind, get_cfg, get_self, set_self, set_cfg, ret.
    rewrite Hc. cbv beta iota. unfold normalised.
    destruct (String.eqb (searcher c) "tv"); cbv beta iota;
      cbn [self cfg requested warned base_url params supported_params
           apikey website searcher categories];
      rewrite ?Hc; cbv beta iota;
      cbn [self cfg requested warned base_url params supported_params
           apikey website searcher categories];
      match goal with
      | |- context [_setup_caps ?t ?s ?cs ?w0] =>
          destruct (setup_caps_preserves t s cs w0) as [-> ->]
      end; cbn; [split; reflexivity|].
    split; [reflexivity|]. now destruct c. }
  destruct Hw' as [Hbase Hcfg]. rewrite Hbase.
  repeat split; [apply rstrip_char_end|apply rstrip_char_run|exact Hcfg].
Qed.

(** X24.  How [search] fails before any result: without a configuration
    it raises a [TypeError] and touches nothing; when the capability
    request raises, [search] raises after that one request, with the
    instance set up but no searcher selected.  What it raises then is a
    [PluginError] for an exception of the network, which the decorator of
    [_setup_caps] rewrites, and the exception of the request itself
    otherwise. *)
Theorem search_failures (tsk : task) (entry : gmap string string)
    (w : world) :
  (w.(cfg) = None -> search tsk entry w = (Raise TypeError, w))
  /\ (forall c e,
        w.(cfg) = Some c ->
        requests_get tsk (caps_url c) = Raise e ->
        search tsk entry w
        = (Raise match e with
                 | RequestError text =>
                     PluginError ("RequestException: " +:+ text)
                 | _ => e
                 end,
           {| self := {| base_url := Py.rstrip_char "/" c.(website);
                         supported_params := [];
                         params := [("apikey", c.(apikey));
                                    ("extended", "1")] |};
              cfg := Some (normalised c);
              requested := w.(requested) ++ [caps_url c];
              warned := w.(warned) |})).
Proof.
  split.
  - intros Hc. unfold search, _setup, bind, get_cfg. now rewrite Hc.
  - intros c e Hc Hget. change (match e with
                                 | RequestError text =>
                                     PluginError ("RequestException: " +:+ text)
                                 | _ => e
                                 end) with (internet_exn e).
    unfold search, _setup, _setup_caps, internet, _build_url, request, bind,
      get_cfg, get_self, set_self, set_cfg, ret.
    rewrite Hc. cbv beta iota. unfold normalised, caps_url in *.
    destruct (String.eqb (searcher c) "tv"); cbv beta iota;
      cbn [self cfg requested warned base_url params supported_params
           apikey website searcher categories];
      rewrite ?Hc; cbv beta iota;
      cbn [self cfg requested warned base_url params supported_params
           apikey website searcher categories setitem];
      change (String.eqb "t" "apikey") with false;
      change (String.eqb "t" "extended") with false; cbv iota;
      rewrite Hget; [reflexivity|].
    now destruct c.
Qed.

(** X25.  After a [search] that returns, the query parameters of the
    instance are exactly [apikey], [extended = 1] and [t], where [t] is
    the configured searcher (with [tv] read as [tvsearch]) or [search];
    the base url is the website without trailing slashes and the list of
    supported parameters is not empty. *)
Theorem search_leaves_instance_set_up (tsk : task)
    (entry : gmap string string) (w w' : world) (c : config)
    (results : list (gmap string string)) :
  search tsk entry w = (Ok results, w') ->
  w.(cfg) = Some c ->
  exists t,
    (t = (normalised c).(searcher) \/ t = "search")
    /\ w'.(self).(params)
       = [("apikey", c.(apikey)); ("extended", "1"); ("t", t)]
    /\ w'.(self).(base_url) = Py.rstrip_char "/" c.(website)
    /\ w'.(self).(supported_params) <> [].
Proof.
  intros Hrun Hc. revert Hrun.
  unfold search, _setup, _setup_caps, internet, _setup_categories, _build_url,
    request, bind, get_cfg, get_self, set_self, set_cfg, ret.
  rewrite Hc. cbv beta iota. unfold normalised.
  destruct (String.eqb (searcher c) "tv"); cbv beta iota;
    cbn [self cfg requested warned base_url params supported_params
         apikey website searcher categories];
    rewrite ?Hc; cbv beta iota;
    cbn [self cfg requested warned base_url params supported_params
         apikey website searcher categories];
    (destruct (requests_get tsk _) as [root|]; [|discriminate]);
    match goal with
    | |- context [_setup_searcher ?r ?s ?w0] =>
        destruct (setup_searcher_outcome r s w0)
          as [(e & ->)|(t & sp & wl & Ht & Hsp & ->)]
    end; try discriminate;
    intros [= _ <-]; exists t;
    cbn [self cfg requested warned base_url params supported_params setitem];
    change (String.eqb "t" "apikey") with false;
    change (String.eqb "t" "extended") with false; cbv iota;
    repeat split; assumption.
Qed.

End WithLibraries.
End SetupFacts.

(** ** Instances of the properties above *)

Module FurtherExamples.
Import MiniRe Html SimpleUrl Examples.

(** [DOTALL, IGNORECASE], with a blank after the comma. *)
Lemma flagstr_to_flags_known_witness :
  SoupParse.flagstr_to_flags "DOTALL, IGNORECASE" = Ok 18.
Proof.
  exact (FlagFacts.flagstr_to_flags_known "DOTALL, IGNORECASE" [16; 2]
           ltac:(repeat constructor)).
Defined.

Lemma flagstr_to_flags_unknown_witness :
  SoupParse.flagstr_to_flags "I,BOGUS ,M" = Raise (KeyError "BOGUS").
Proof.
  exact (FlagFacts.flagstr_to_flags_unknown "I,BOGUS ,M" "BOGUS " ["I"] ["M"]
           eq_refl ltac:(repeat constructor; now exists 2) eq_refl).
Defined.

Lemma flagstr_to_flags_join_witness :
  SoupParse.flagstr_to_flags "I,S" = Ok 18
  /\ SoupParse.flagstr_to_flags "S,I" = Ok 18
  /\ SoupParse.flagstr_to_flags "I,I" = Ok 2.
Proof.
  exact (FlagFacts.flagstr_to_flags_join "I" "S" 2 16 eq_refl eq_refl).
Defined.

Lemma flagstr_to_flags_bits_witness :
  Z.land 96 254 = 96 /\ 0 <= 96 <= 254.
Proof.
  exact (FlagFacts.flagstr_to_flags_bits "X,U" 96 eq_refl).
Defined.

Lemma flagstr_to_flags_trailing_comma_witness :
  SoupParse.flagstr_to_flags "I," = Raise (KeyError "").
Proof.
  exact (FlagFacts.flagstr_to_flags_trailing_comma "I" 2 eq_refl).
Defined.

(** Two items, the second with a flag. *)
Lemma compile_regexp_dict_list_each_witness :
  SoupParse.compile_regexp_dict_list
    [ {| SoupParse.regexp := "b"; SoupParse.flags := None |};
      {| SoupParse.regexp := ".*"; SoupParse.flags := Some "DOTALL" |} ]
  = Ok [anchored_free "b"; {| pieces := [Star AnyChar]; dotall := true |}].
Proof.
  apply (proj2 (CompileFacts.compile_regexp_dict_list_each
                  (H := MiniRe.regex) _ _)).
  repeat constructor.
  - exists 0. split; reflexivity.
  - exists 16. split; reflexivity.
Defined.

Lemma tag_limiter_bounds_witness :
  Py.eval "3" 7 = Ok 3 /\ Py.eval "5" 7 = Ok 5.
Proof.
  pose proof (CompileFacts.tag_limiter_bounds (H := MiniRe.regex)
                [limit_li] [term_li] eq_refl) as Hall.
  apply Forall2_cons_1 in Hall as [Hli _]. exact (Hli 7).
Defined.

Lemma tag_limiter_item_attributes_witness :
  exists p : pattern,
    compile "^.*$" 0 = Ok p
    /\ [(Some "class", {| pieces := [Bol; Star AnyChar; Eol];
                          dotall := false |})]
       = [(Some "class", p)].
Proof.
  exact (CompileFacts.tag_limiter_item_attributes (H := MiniRe.regex)
           {| SoupParse.element_name := None;
              SoupParse.attribute_name := Some "class";
              SoupParse.attribute_value := None;
              SoupParse.start := 1; SoupParse.end_ := 31415 |}
           {| SoupParse.term_el_name := anchored "None";
              SoupParse.term_att_dict :=
                [(Some "class",
                  {| pieces := [Bol; Star AnyChar; Eol]; dotall := false |})];
              SoupParse.term_start := "0";
              SoupParse.term_end := "len(new_tag_list)" |}
           eq_refl).
Defined.

(** The limits [li] from 4 to 5, then [a], on the list of two items. *)
Lemma resolver_returns_for_valid_limits_witness :
  exists nodes log,
    SoupParse._get_master_tag_list [[listing]] 0 [term_li; term_a]
    = (Ok nodes, log).
Proof.
  apply (ResolverInvariants.resolver_returns_for_valid_limits
           (SoupImpl := Html.soup) [limit_li; SoupParse.LimitStr "a"]).
  - discriminate.
  - repeat constructor. cbn. lia.
  - reflexivity.
Defined.

Lemma resolver_empty_scope_witness :
  SoupParse._get_master_tag_list [[]] 0 [term_li; term_a] = (Ok [], []).
Proof.
  exact (ResolverInvariants.resolver_empty_scope (SoupImpl := Html.soup)
           [[]] 0 [term_li; term_a] eq_refl eq_refl).
Defined.

Lemma resolver_yields_matches_of_last_term_witness :
  exists parent : html,
    Elem "a" [("href", "/2")] [Text "two"]
    ∈ find_all parent (anchored "a") [].
Proof.
  apply (ResolverInvariants.resolver_yields_matches_of_last_term
           (SoupImpl := Html.soup)
           [[listing]] 0 [term_li; term_a] term_a
           [Elem "a" [("href", "/1")] [Text "one"];
            Elem "a" [("href", "/2")] [Text "two"]]
           [StartAfterEnd 4 1 5 2 1; EndAfterActual 5 1 2 1]
           eq_refl ltac:(cbn; lia)).
  - vm_compute. reflexivity.
  - right. left.
Defined.

(** Resolving [url] in a record that already holds the title. *)
Lemma extract_key_frame_witness :
  record1 !! "title" = ({[ "title" := "one" ]} : gmap string string) !! "title".
Proof.
  assert (Hrun : SoupParse.extract_key "http://site/" default_regexps 1 li1
                   ({[ "title" := "one" ]} : gmap string string)
                   ("url", url_key)
                 = (Ok record1, []))
    by (vm_compute; reflexivity).
  exact (RecordFacts.extract_key_frame _ _ _ _ _ _ _ _ _ Hrun
           "title" ltac:(discriminate) ltac:(discriminate)
           ltac:(discriminate)).
Defined.

Lemma record_fields_are_configured_witness :
  "url" ∈ map fst (SoupParse.keys config_B)
  \/ "url" = "original_title" \/ "url" = "original_url".
Proof.
  assert (Hrun : SoupParse.extract_section config_B default_regexps 1 li1
                 = (Ok record1, []))
    by (vm_compute; reflexivity).
  exact (RecordFacts.record_fields_are_configured _ _ _ _ _ _ Hrun
           "url" ltac:(now exists "http://site/1")).
Defined.

Lemma scan_keys_covers_keys_witness :
  exists regexps, SoupParse.regexps_of default_regexps "title" = Ok regexps.
Proof.
  assert (Hrun : SoupParse.scan_keys SoupParse.__init__ ∅
                   (SoupParse.keys config_B)
                 = (Ok default_regexps, SoupParse.__init__))
    by (vm_compute; reflexivity).
  apply (RecordFacts.scan_keys_covers_keys _ _ _ _ _ Hrun).
  left.
Defined.

(** Configuration B on the list of two items. *)
Lemma returned_records_are_valid_witness :
  SoupParse.required SoupParse.__init__
  = SoupParse.required SoupParse.__init__
    ++ SoupParse.declared_required (SoupParse.keys config_B)
  /\ Forall (fun entry : gmap string string =>
               is_Some (entry !! "title") /\ is_Some (entry !! "url")
               /\ Forall (fun key => is_Some (entry !! key))
                         (SoupParse.required SoupParse.__init__
                          ++ SoupParse.declared_required
                               (SoupParse.keys config_B)))
            [record1; record2].
Proof.
  assert (Hrun : SoupParse.on_task_input SoupParse.__init__
                   (serving listing) config_B
                 = ((Ok [record1; record2], []), SoupParse.__init__))
    by (vm_compute; reflexivity).
  exact (RecordFacts.returned_records_are_valid _ _ _ _ _ _ Hrun).
Defined.

Lemma at_most_one_record_per_section_witness :
  (length [record1; record2] <= length [li1; li2])%nat.
Proof.
  assert (Hrun : SoupParse.on_task_input SoupParse.__init__
                   (serving listing) config_B
                 = ((Ok [record1; record2], []), SoupParse.__init__))
    by (vm_compute; reflexivity).
  destruct (RecordFacts.at_most_one_record_per_section _ _ _ _ _ _ Hrun)
    as [(soup & sections & l & Hfetch & Hsec & Hlen) _].
  injection Hfetch as <-. vm_compute in Hsec. injection Hsec as <- _.
  exact Hlen.
Defined.

(** The key [size] looks for a [span], and the first item has none. *)
Lemma section_not_found_skips_key_witness :
  SoupParse.extract_key "http://site/" default_regexps 1 li1 ∅
    ("size", size_key)
  = (Ok ∅, [SectionNotFound "size" 1]).
Proof.
  assert (Hrun : SoupParse._get_master_tag_list [[li1]] 0
                   [{| SoupParse.term_el_name := anchored "span";
                       SoupParse.term_att_dict := [];
                       SoupParse.term_start := "0";
                       SoupParse.term_end := "len(new_tag_list)" |}]
                 = (Ok [], []))
    by (vm_compute; reflexivity).
  exact (RecordFacts.section_not_found_skips_key
           "http://site/" default_regexps 1 li1 ∅ "size" size_key
           [SoupParse.LimitStr "span"] _ []
           eq_refl ltac:(discriminate) eq_refl Hrun).
Defined.

(** The first link of the first item: its [href] is stored as it is. *)
Lemma locate_url_index_witness :
  SoupParse.locate "http://site/" "url" 1 li1 (SoupParse.LocDict "url" 1)
  = (Ok "/1", []).
Proof.
  exact (proj1 (RecordFacts.locate_url_index
                  "http://site/" "url" 1 li1 1 ltac:(lia))
               (Elem "a" [("href", "/1")] [Text "one"]) eq_refl).
Defined.

Lemma extract_sections_filter_witness :
  fst (SoupParse.extract_sections SoupParse.__init__ config_B
         default_regexps 0 [li1; li2] [])
  = Ok [record1; record2].
Proof.
  assert (H1 : fst (SoupParse.extract_section config_B default_regexps
                      (0 + 1) li1) = Ok record1)
    by (vm_compute; reflexivity).
  assert (H2 : fst (SoupParse.extract_section config_B default_regexps
                      (0 + 2) li2) = Ok record2)
    by (vm_compute; reflexivity).
  exact (ExtractorFacts.extract_sections_filter
           SoupParse.__init__ config_B default_regexps [li1; li2]
           [record1; record2]
           ltac:(repeat constructor; assumption)).
Defined.

(** The searchers of [caps]: [search] is advertised. *)
Lemma check_searcher_outcomes_witness :
  Torznab._check_searcher caps_searchers "search" = Ok true
  /\ Torznab._check_searcher caps_searchers "movie-search" = Ok false.
Proof.
  split.
  - exact (proj2 (proj1 (SetupFacts.check_searcher_outcomes
                           caps_searchers "search")) eq_refl).
  - exact (proj1 (proj2 (SetupFacts.check_searcher_outcomes
                           caps_searchers "movie-search")) eq_refl).
Defined.

Lemma setup_searcher_failure_changes_nothing_witness :
  snd (Torznab._setup_searcher error_reply "movie" world0) = world0.
Proof.
  assert (Hrun : Torznab._setup_searcher error_reply "movie" world0
                 = (Raise TypeError,
                    snd (Torznab._setup_searcher error_reply "movie" world0)))
    by (vm_compute; reflexivity).
  exact (SetupFacts.setup_searcher_failure_changes_nothing _ _ _ _ _ Hrun).
Defined.

Lemma setup_searcher_success_witness :
  let w' := snd (Torznab._setup_searcher caps "tvsearch" world0) in
  (SoupParse.assoc "t" (Torznab.params (Torznab.self w')) = Some "tvsearch"
   \/ SoupParse.assoc "t" (Torznab.params (Torznab.self w')) = Some "search")
  /\ Torznab.supported_params (Torznab.self w') <> []
  /\ Torznab.requested w' = Torznab.requested world0.
Proof.
  assert (Hrun : Torznab._setup_searcher caps "tvsearch" world0
                 = (Ok tt,
                    snd (Torznab._setup_searcher caps "tvsearch" world0)))
    by (vm_compute; reflexivity).
  destruct (SetupFacts.setup_searcher_success _ _ _ _ Hrun)
    as (Ht & _ & Hsp & _ & _ & Hreq).
  exact (conj Ht (conj Hsp Hreq)).
Defined.

Lemma setup_normalises_witness :
  let w' := snd (Torznab._setup (answering caps) world0) in
  Torznab.base_url (Torznab.self w') = "http://indexer"
  /\ Torznab.cfg w' = Some (Torznab.normalised indexer).
Proof.
  destruct (SetupFacts.setup_normalises (answering caps) world0 indexer
              eq_refl)
    as (Hbase & _ & _ & Hcfg).
  exact (conj Hbase Hcfg).
Defined.

(** A search on an indexer that cannot be reached. *)
Lemma search_failures_witness :
  fst (Torznab.search unreachable ∅ world0)
  = Raise (PluginError
             "RequestException: http://indexer/api?apikey=k&extended=1&t=caps")
  /\ Torznab.requested (snd (Torznab.search unreachable ∅ world0))
     = ["http://indexer/api?apikey=k&extended=1&t=caps"].
Proof.
  rewrite (proj2 (SetupFacts.search_failures (SoupImpl := Html.soup)
                    (UrlImpl := SimpleUrl.urllib) unreachable ∅ world0)
                 indexer
                 (RequestError "http://indexer/api?apikey=k&extended=1&t=caps")
                 eq_refl eq_refl).
  split; reflexivity.
Defined.

Lemma search_leaves_instance_set_up_witness :
  exists t,
    (t = "tvsearch" \/ t = "search")
    /\ Torznab.params (Torznab.self world1)
       = [("apikey", "k"); ("extended", "1"); ("t", t)]
    /\ Torznab.base_url (Torznab.self world1) = "http://indexer"
    /\ Torznab.supported_params (Torznab.self world1) <> [].
Proof.
  assert (Hrun : Torznab.search (answering caps) ∅ world0 = (Ok [], world1))
    by (vm_compute; reflexivity).
  exact (SetupFacts.search_leaves_instance_set_up _ _ _ _ _ _ Hrun eq_refl).
Defined.

(** The first text of the first item is [one], and yet the string located
    by [{'text': 1}] is empty. *)
Lemma locate_text_index_witness :
  fst (SoupParse.locate "http://site/" "title" 1 li1
         (SoupParse.LocDict "text" 1))
  = Ok "".
Proof.
  destruct (SoupParse.locate (SoupImpl := Html.soup)
              (UrlImpl := SimpleUrl.urllib) "http://site/" "title" 1 li1
              (SoupParse.LocDict "text" 1)) as [[s|e] l] eqn:E; cbn [fst].
  - f_equal. exact (ExtractorFacts.locate_text_index _ _ _ _ _ _ _ E).
  - vm_compute in E. discriminate E.
Defined.

End FurtherExamples.
